(** * playwright-web-scraper: selector resolution, extraction and storage

    A shallow embedding of the decision logic of
    - [agent/auto_detect.py]  (template registry and heuristic detector),
    - [agent/scraper.py]      (per-container extraction pipeline),
    - [agent/storage.py]      (SQLite store with a unique link column,
                               CSV and JSON writers),
    followed by the properties of the specification that concern them.

    Python dictionaries are finite maps ([gmap]), except the template
    registry, whose iteration order matters and which is an association
    list in insertion order.  Calls that may raise return a [result]. *)

From stdpp Require Import gmap strings list sorting.
From Stdlib Require Import ZArith Lia.

Open Scope string_scope.
Open Scope list_scope.
Open Scope nat_scope.

(** ** Exceptions and results *)

(** The exceptions the modelled code can meet: a Playwright error (bad
    selector, detached element, destroyed execution context), and the two
    kinds of [sqlite3] error that [SQLiteStorage.save] tells apart. *)
Inductive exn : Set :=
  | PlaywrightError
  | IntegrityError
  | DatabaseError.

Inductive result (A : Type) : Type :=
  | Ok (a : A)
  | Raise (e : exn).

Arguments Ok {A} a.
Arguments Raise {A} e.

#[global] Instance result_ret : MRet result := λ A a, Ok a.
#[global] Instance result_bind : MBind result :=
  λ A B f r, match r with Ok a => f a | Raise e => Raise e end.
#[global] Instance result_fmap : FMap result :=
  λ A B f r, match r with Ok a => Ok (f a) | Raise e => Raise e end.

Definition raises {A} (r : result A) : Prop :=
  match r with Ok _ => False | Raise _ => True end.

(** Truth value of an [Optional[str]]: [None] and the empty string are
    false. *)
Definition truthy (v : option string) : bool :=
  match v with
  | Some s => negb (String.eqb s "")
  | None => false
  end.

(** Python's [needle in hay] on strings. *)
Fixpoint contains (needle hay : string) : bool :=
  String.prefix needle hay ||
  match hay with
  | EmptyString => false
  | String _ rest => contains needle rest
  end.

(** The double quote character, and CSS attribute selectors that use it:
    [attr "class" "*=" "post"] is the text [[class*=QpostQ]] with Q the
    quote. *)
Definition dq : string := String (Ascii.ascii_of_nat 34) EmptyString.

Definition attr (name op value : string) : string :=
  "[" +:+ name +:+ op +:+ dq +:+ value +:+ dq +:+ "]".

(** ** The Playwright objects the code queries *)

Module Playwright.

(** An [ElementHandle] as the record of what its methods answer. *)
#[local] Unset Elimination Schemes.
Inductive ElementHandle : Type := mkElement {
  inner_text : result string;
  get_attribute : string → result (option string);
  query_selector : string → result (option ElementHandle)
}.
#[local] Set Elimination Schemes.

Record Page : Type := mkPage {
  query_selector_all : string → result (list ElementHandle);
  evaluate : string → result string
}.

End Playwright.

Import Playwright.

(** ** agent/auto_detect.py *)

Module AutoDetect.

(** [SITE_TEMPLATES], in the order of the dictionary literal. *)
Definition SITE_TEMPLATES : list (string * gmap string string) := [
  ("wikipedia.org", list_to_map [
     ("container", ".mw-parser-output > p, .mw-parser-output > h2, .mw-parser-output > h3");
     ("title", "#firstHeading, h1");
     ("content", "p");
     ("link", "a[href]")]);
  ("medium.com", list_to_map [
     ("container", "article");
     ("title", "h1");
     ("author", attr "rel" "=" "author" +:+ ", " +:+ attr "data-testid" "=" "authorName");
     ("date", "time");
     ("content", "article p");
     ("link", "a[href]")]);
  ("dev.to", list_to_map [
     ("container", ".crayons-story");
     ("title", "h2, h3");
     ("author", ".crayons-story__secondary .crayons-link");
     ("date", "time");
     ("content", ".crayons-story__body");
     ("link", "a[href]")]);
  ("reddit.com", list_to_map [
     ("container", attr "data-testid" "=" "post-container" +:+ ", .Post");
     ("title", "h3, " +:+ attr "data-click-id" "=" "text");
     ("author", attr "data-testid" "=" "post_author_link");
     ("date", "time");
     ("content", attr "data-test-id" "=" "post-content");
     ("link", "a[href]")]);
  ("stackoverflow.com", list_to_map [
     ("container", ".question-summary, .answer");
     ("title", ".question-hyperlink, h1");
     ("author", ".user-details a");
     ("date", ".relativetime");
     ("content", ".s-prose p");
     ("link", "a.question-hyperlink")]);
  ("github.com", list_to_map [
     ("container", "article.Box-row, .repo-list li");
     ("title", "h3, h1");
     ("author", attr "itemprop" "=" "author");
     ("date", "relative-time");
     ("content", "p.col-9");
     ("link", "a[href]")]);
  ("news.ycombinator.com", list_to_map [
     ("container", ".athing, tr.athing");
     ("title", ".titleline > a");
     ("author", ".hnuser");
     ("date", ".age");
     ("content", ".comment");
     ("link", ".titleline > a")]);
  ("amazon.com", list_to_map [
     ("container", attr "data-component-type" "=" "s-search-result" +:+ ", .s-result-item");
     ("title", "h2 a, .s-title-instructions-style");
     ("author", ".a-size-base-plus");
     ("date", "");
     ("content", ".a-size-base-plus");
     ("link", "h2 a")]);
  ("mercadolivre.com.br", list_to_map [
     ("container", ".ui-search-result");
     ("title", ".ui-search-item__title");
     ("author", ".ui-search-official-store-label");
     ("date", "");
     ("content", ".ui-search-item__group__element");
     ("link", ".ui-search-link")]);
  ("g1.globo.com", list_to_map [
     ("container", ".feed-post-body, .widget--info");
     ("title", ".feed-post-link, h1");
     ("author", ".feed-post-metadata-section");
     ("date", ".feed-post-datetime");
     ("content", ".feed-post-body-resumo, p");
     ("link", ".feed-post-link")]);
  ("uol.com.br", list_to_map [
     ("container", ".thumbnails-item, article");
     ("title", ".thumb-title, h1");
     ("author", ".author");
     ("date", ".time");
     ("content", "p");
     ("link", "a[href]")]);
  ("folha.uol.com.br", list_to_map [
     ("container", ".c-headline, article");
     ("title", ".c-headline__title, h1");
     ("author", ".c-headline__byline");
     ("date", "time");
     ("content", ".c-news__body p");
     ("link", ".c-headline__url")]);
  ("techcrunch.com", list_to_map [
     ("container", ".post-block, article");
     ("title", ".post-block__title, h1");
     ("author", ".river-byline__authors");
     ("date", "time");
     ("content", ".article-content p");
     ("link", ".post-block__title__link")]);
  ("theverge.com", list_to_map [
     ("container", ".duet--content-cards--content-card, article");
     ("title", "h2, h1");
     ("author", ".duet--authors--name");
     ("date", "time");
     ("content", ".duet--article--article-body-component p");
     ("link", "a[href]")])
].

(** Subscript [d[k]] and membership [k in d] of an insertion-ordered
    dictionary held as an association list. *)
Fixpoint dict_get {V} (d : list (string * V)) (k : string) : option V :=
  match d with
  | [] => None
  | (k', v) :: rest => if String.eqb k' k then Some v else dict_get rest k
  end.

(** The attributes [__init__] sets: the page and the domain of its URL. *)
Record AutoDetector : Type := mkAutoDetector {
  page : Page;
  domain : string
}.

(** [_extract_domain], on the [netloc] that [urlparse] reads off the URL. *)
Definition _extract_domain (netloc : string) : string :=
  if String.prefix "www." netloc
  then String.substring 4 (String.length netloc - 4) netloc
  else netloc.

(** The partial search of [_try_template]: the first key, in iteration
    order, that occurs in the domain. *)
Fixpoint partial_match (templates : list (string * gmap string string))
    (dom : string) : option (gmap string string) :=
  match templates with
  | [] => None
  | (template_domain, template) :: rest =>
      if contains template_domain dom then Some template
      else partial_match rest dom
  end.

Definition try_template_in (templates : list (string * gmap string string))
    (dom : string) : option (gmap string string) :=
  match dict_get templates dom with
  | Some template => Some template
  | None => partial_match templates dom
  end.

Definition _try_template (self : AutoDetector) : option (gmap string string) :=
  try_template_in SITE_TEMPLATES (domain self).

(** [len(self.page.query_selector_all(selector))] *)
Definition count (self : AutoDetector) (selector : string) : result nat :=
  length <$> query_selector_all (page self) selector.

(** A candidate loop with no [try]: a probe that raises leaves the loop
    and the method. *)
Fixpoint probe_loop (accept : nat → bool) (self : AutoDetector)
    (candidates : list string) : result (option string) :=
  match candidates with
  | [] => Ok None
  | selector :: rest =>
      n ← count self selector;
      if accept n then Ok (Some selector) else probe_loop accept self rest
  end.

(** A candidate loop under [try: ... except: continue]. *)
Fixpoint guarded_probe_loop (accept : nat → bool) (self : AutoDetector)
    (candidates : list string) : option string :=
  match candidates with
  | [] => None
  | selector :: rest =>
      match count self selector with
      | Ok n =>
          if accept n then Some selector
          else guarded_probe_loop accept self rest
      | Raise _ => guarded_probe_loop accept self rest
      end
  end.

(** [3 <= count <= 100] *)
Definition in_range (n : nat) : bool := ((3 <=? n) && (n <=? 100))%nat.

(** [count > 0] *)
Definition positive (n : nat) : bool := (0 <? n)%nat.

Definition semantic_tags : list string :=
  ["article"; "section" +:+ attr "class" "*=" "post";
   "section" +:+ attr "class" "*=" "item"].

Definition common_classes : list string :=
  [".post"; ".card"; ".item"; ".entry"; ".article-item";
   attr "class" "*=" "post"; attr "class" "*=" "card";
   attr "class" "*=" "item"; attr "class" "*=" "story";
   attr "class" "*=" "content-item"].

Definition container_fallback : string :=
  "article, .post, .card, .item, .entry, section" +:+ attr "class" "*=" "post".

Definition _detect_container (self : AutoDetector) : result string :=
  found ← probe_loop in_range self semantic_tags;
  match found with
  | Some tag => Ok tag
  | None =>
      match guarded_probe_loop in_range self common_classes with
      | Some selector => Ok selector
      | None => Ok container_fallback
      end
  end.

Definition headings : list string := ["h1"; "h2"; "h3"].

Definition title_classes : list string :=
  [".title"; ".headline"; attr "class" "*=" "title";
   attr "class" "*=" "heading"].

Definition _detect_title (self : AutoDetector) : result string :=
  found ← probe_loop positive self headings;
  match found with
  | Some heading => Ok heading
  | None =>
      match guarded_probe_loop positive self title_classes with
      | Some selector => Ok selector
      | None => Ok "h1, h2, h3, .title, .headline"
      end
  end.

Definition author_selectors : list string :=
  [".author"; ".byline"; attr "class" "*=" "author";
   attr "rel" "=" "author"; attr "itemprop" "=" "author";
   ".meta-author"; ".writer"].

Definition _detect_author (self : AutoDetector) : string :=
  match guarded_probe_loop positive self author_selectors with
  | Some selector => selector
  | None => ".author, .byline, " +:+ attr "rel" "=" "author"
  end.

Definition date_selectors : list string :=
  ["time"; "[datetime]"; ".date"; ".published";
   attr "class" "*=" "date"; attr "class" "*=" "time";
   ".meta-date"; ".timestamp"].

Definition _detect_date (self : AutoDetector) : string :=
  match guarded_probe_loop positive self date_selectors with
  | Some selector => selector
  | None => "time, .date, .published"
  end.

Definition content_selectors : list string :=
  [".content"; ".description"; ".summary"; ".excerpt";
   attr "class" "*=" "content"; attr "class" "*=" "description";
   "p"; ".text"].

Definition _detect_content (self : AutoDetector) : string :=
  match guarded_probe_loop positive self content_selectors with
  | Some selector => selector
  | None => ".content, .description, .summary, p"
  end.

(** The dictionary is created with its six keys, then five of them are
    assigned in turn. *)
Definition _heuristic_detection (self : AutoDetector)
    : result (gmap string string) :=
  let selectors : gmap string string :=
    list_to_map [("container", ""); ("title", ""); ("author", "");
                 ("date", ""); ("content", ""); ("link", "a[href]")] in
  container ← _detect_container self;
  let selectors := <["container" := container]> selectors in
  title ← _detect_title self;
  let selectors := <["title" := title]> selectors in
  let selectors := <["author" := _detect_author self]> selectors in
  let selectors := <["date" := _detect_date self]> selectors in
  let selectors := <["content" := _detect_content self]> selectors in
  Ok selectors.

(** [if template:] holds for a dictionary that is not empty. *)
Definition detect (self : AutoDetector) : result (gmap string string) :=
  match _try_template self with
  | Some template =>
      if decide (template = ∅) then _heuristic_detection self
      else Ok template
  | None => _heuristic_detection self
  end.

(** A candidate is passed over when its probe answers a count that the
    acceptance test refuses. *)
Definition refused (accept : nat → bool) (self : AutoDetector) (c : string)
    : Prop :=
  ∃ n, count self c = Ok n ∧ accept n = false.

Definition accepted (accept : nat → bool) (self : AutoDetector) (c : string)
    : Prop :=
  ∃ n, count self c = Ok n ∧ accept n = true.

(** The six keys of the dictionary that [_heuristic_detection] fills. *)
Definition selector_keys : list string :=
  ["container"; "title"; "author"; "date"; "content"; "link"].

(** The three detectors that are one guarded loop and a fallback: their
    candidates, their fallback, the method. *)
Definition guarded_detectors
    : list (list string * string * (AutoDetector → string)) :=
  [(author_selectors, ".author, .byline, " +:+ attr "rel" "=" "author",
    _detect_author);
   (date_selectors, "time, .date, .published", _detect_date);
   (content_selectors, ".content, .description, .summary, p",
    _detect_content)].

(** A probe that a guarded loop passes over: it raises, or it answers a
    count that the acceptance test refuses. *)
Definition skipped (accept : nat → bool) (self : AutoDetector) (c : string)
    : Prop :=
  match count self c with
  | Ok n => accept n = false
  | Raise _ => True
  end.


End AutoDetect.

(** ** agent/scraper.py *)

Module Scraper.

(** The [SELECTORS] dictionary: six fixed keys, read by subscript. *)
Record Selectors : Type := mkSelectors {
  sel_container : string;
  sel_title : string;
  sel_author : string;
  sel_date : string;
  sel_content : string;
  sel_link : string
}.

(** The class attribute, before any override by a caller. *)
Definition DEFAULT_SELECTORS : Selectors := {|
  sel_container := "article, .post, .card, .item, .news-item";
  sel_title := "h1, h2, h3, .title, .headline";
  sel_author := ".author, .byline, " +:+ attr "rel" "=" "author";
  sel_date := "time, .date, .published";
  sel_content := ".content, .description, .summary, p";
  sel_link := "a[href]"
|}.

Record WebScraper : Type := mkWebScraper {
  page : Page;
  SELECTORS : Selectors
}.

(** [containers[:stop]] *)
Definition slice_to {A} (l : list A) (stop : Z) : list A :=
  if (0 <=? stop)%Z then take (Z.to_nat stop) l
  else take (length l - Z.to_nat (- stop)) l.

(** The condition of [if max_items:] on an [Optional[int]]. *)
Definition is_set (max_items : option Z) : bool :=
  match max_items with
  | Some n => negb (n =? 0)%Z
  | None => false
  end.

Section Extraction.

(** [str.strip] is the interpreter's; nothing below depends on which
    characters it removes. *)
Context (strip : string → string).

Definition _extract_item_data (self : WebScraper) (container : ElementHandle)
    : result (gmap string string) :=
  let item : gmap string string := ∅ in
  title_el ← query_selector container (sel_title (SELECTORS self));
  item ← match title_el with
         | Some el => text ← inner_text el; Ok (<["title" := strip text]> item)
         | None => Ok item
         end;
  author_el ← query_selector container (sel_author (SELECTORS self));
  item ← match author_el with
         | Some el => text ← inner_text el; Ok (<["author" := strip text]> item)
         | None => Ok item
         end;
  date_el ← query_selector container (sel_date (SELECTORS self));
  item ← match date_el with
         | Some el =>
             date_value ← get_attribute el "datetime";
             date_value ← (if truthy date_value
                           then Ok (default "" date_value)
                           else strip <$> inner_text el);
             Ok (<["date" := date_value]> item)
         | None => Ok item
         end;
  content_el ← query_selector container (sel_content (SELECTORS self));
  item ← match content_el with
         | Some el => text ← inner_text el; Ok (<["content" := strip text]> item)
         | None => Ok item
         end;
  link_el ← query_selector container (sel_link (SELECTORS self));
  match link_el with
  | Some el =>
      href ← get_attribute el "href";
      if truthy href then
        url ← evaluate (page self)
                ("new URL('" +:+ default "" href +:+ "', window.location.href).href");
        Ok (<["link" := url]> item)
      else Ok item
  | None => Ok item
  end.

(** The test before [data.append(item)]. *)
Definition has_title_or_link (item : gmap string string) : bool :=
  truthy (item !! "title") || truthy (item !! "link").

(** The [for] loop of [extract_data], with [data] as accumulator; the
    inner [except Exception] drops the container and continues. *)
Fixpoint extract_loop (self : WebScraper) (containers : list ElementHandle)
    (data : list (gmap string string)) : list (gmap string string) :=
  match containers with
  | [] => data
  | container :: rest =>
      match _extract_item_data self container with
      | Ok item =>
          if has_title_or_link item
          then extract_loop self rest (data ++ [item])
          else extract_loop self rest data
      | Raise _ => extract_loop self rest data
      end
  end.

(** The outer [except Exception] returns [data] as it stands, which is
    empty when the container query itself raises. *)
Definition extract_data (self : WebScraper) (max_items : option Z)
    : list (gmap string string) :=
  match query_selector_all (page self) (sel_container (SELECTORS self)) with
  | Ok containers =>
      let containers :=
        if is_set max_items
        then slice_to containers (default 0%Z max_items)
        else containers in
      extract_loop self containers []
  | Raise _ => []
  end.

(** What one container contributes to the output. *)
Definition record_of (self : WebScraper) (container : ElementHandle)
    : list (gmap string string) :=
  match _extract_item_data self container with
  | Ok item => if has_title_or_link item then [item] else []
  | Raise _ => []
  end.

End Extraction.

(** What the page answers while [scroll_to_bottom] runs: the k-th reading
    of [document.body.scrollHeight] (the reading before the loop is number
    0) and the k-th call of [window.scrollTo]. *)
Record scroll_env : Type := mkScrollEnv {
  heights : nat → result Z;
  scroll_to : nat → result ()
}.

(** The [while scrolls < max_scrolls] loop, on the iterations that are
    left; it returns [scrolls] as the loop leaves it. *)
Fixpoint scroll_loop (E : scroll_env) (remaining : nat) (scrolls : nat)
    (last_height : Z) : result nat :=
  match remaining with
  | 0 => Ok scrolls
  | S remaining' =>
      _ ← scroll_to E scrolls;
      new_height ← heights E (S scrolls);
      if (new_height =? last_height)%Z then Ok scrolls
      else scroll_loop E remaining' (S scrolls) new_height
  end.

(** [scroll_to_bottom] returns nothing; the model returns the number of
    completed scrolls and whether the closing warning
    ([scrolls >= max_scrolls]) is logged. *)
Definition scroll_to_bottom (E : scroll_env) (max_scrolls : Z)
    : result (nat * bool) :=
  last_height ← heights E 0;
  scrolls ← scroll_loop E (Z.to_nat max_scrolls) 0 last_height;
  Ok (scrolls, (max_scrolls <=? Z.of_nat scrolls)%Z).


End Scraper.

(** ** agent/storage.py *)

Module Storage.

(** A row of [scraped_data]; [None] is SQL NULL. *)
Record row : Type := mkRow {
  id : Z;
  title : option string;
  author : option string;
  date : option string;
  link : option string;
  content : option string;
  scraped_at : Z
}.

(** The table, with the counter that AUTOINCREMENT keeps. *)
Record database : Type := mkDatabase {
  rows : list row;
  last_id : Z
}.

(** The table as [_create_table] leaves a new file. *)
Definition empty_database : database := {| rows := []; last_id := 0 |}.

(** A record handed to [save]: a dictionary whose values are strings or
    [None]; [item.get(key)] is [None] for a key that is absent too. *)
Definition get (item : gmap string (option string)) (key : string)
    : option string :=
  default None (item !! key).

(** What [save] cannot decide: the clock behind CURRENT_TIMESTAMP, and
    whether the engine fails at the i-th [execute] of the batch or at
    [commit]. *)
Record env : Type := mkEnv {
  now : Z;
  execute_fault : nat → option exn;
  commit_fault : option exn
}.

Definition healthy (E : env) : Prop :=
  (∀ i, execute_fault E i = None) ∧ commit_fault E = None.

(** The UNIQUE constraint on [link] compares non-NULL values only. *)
Definition link_exists (db : database) (l : string) : bool :=
  existsb (λ r, bool_decide (link r = Some l)) (rows db).

(** The row that an insert writes for [item]: the five bound values, the
    next id, the time of the write. *)
Definition row_of (timestamp : Z) (next_id : Z)
    (item : gmap string (option string)) : row :=
  {| id := next_id;
     title := get item "title";
     author := get item "author";
     date := get item "date";
     link := get item "link";
     content := get item "content";
     scraped_at := timestamp |}.

(** [INSERT OR IGNORE INTO scraped_data (title, author, date, link, content)
    VALUES (?, ?, ?, ?, ?)], with the [rowcount] it leaves. *)
Definition insert_or_ignore (timestamp : Z) (db : database)
    (item : gmap string (option string)) : database * Z :=
  let conflict :=
    match get item "link" with
    | Some l => link_exists db l
    | None => false
    end in
  if conflict then (db, 0%Z)
  else
    ({| rows := rows db ++ [row_of timestamp (last_id db + 1) item];
        last_id := last_id db + 1 |}, 1%Z).

Definition execute (E : env) (i : nat) (db : database)
    (item : gmap string (option string)) : result (database * Z) :=
  match execute_fault E i with
  | Some e => Raise e
  | None => Ok (insert_or_ignore (now E) db item)
  end.

Record counts : Type := mkCounts {
  inserted : nat;
  duplicates : nat;
  errors : nat
}.

(** The body of the [for] loop: one [try] with its two handlers. *)
Definition save_item (E : env) (i : nat) (db : database)
    (item : gmap string (option string)) (c : counts) : database * counts :=
  match execute E i db item with
  | Ok (db', rowcount) =>
      if (0 <? rowcount)%Z
      then (db', {| inserted := inserted c + 1; duplicates := duplicates c;
                    errors := errors c |})
      else (db', {| inserted := inserted c; duplicates := duplicates c + 1;
                    errors := errors c |})
  | Raise IntegrityError =>
      (db, {| inserted := inserted c; duplicates := duplicates c + 1;
              errors := errors c |})
  | Raise _ =>
      (db, {| inserted := inserted c; duplicates := duplicates c;
              errors := errors c + 1 |})
  end.

Fixpoint save_loop (E : env) (i : nat) (db : database)
    (data : list (gmap string (option string))) (c : counts)
    : database * counts :=
  match data with
  | [] => (db, c)
  | item :: rest =>
      let '(db', c') := save_item E i db item c in
      save_loop E (S i) db' rest c'
  end.

(** [save] returns nothing in Python; the model returns the table it
    leaves and the three counters of its closing log line, [None] when the
    empty batch makes it return before any counter exists. *)
Definition save (E : env) (db : database)
    (data : list (gmap string (option string)))
    : result (database * option counts) :=
  match data with
  | [] => Ok (db, None)
  | _ :: _ =>
      let '(db', c) :=
        save_loop E 0 db data {| inserted := 0; duplicates := 0; errors := 0 |} in
      match commit_fault E with
      | Some e => Raise e
      | None => Ok (db', Some c)
      end
  end.

(** The rows that a batch writes when each of its records is inserted,
    the first one after id [last]. *)
Fixpoint rows_from (timestamp : Z) (last : Z)
    (data : list (gmap string (option string))) : list row :=
  match data with
  | [] => []
  | item :: rest =>
      row_of timestamp (last + 1) item :: rows_from timestamp (last + 1) rest
  end.

(** Records of a batch with no link, rows of a table with none. *)
Definition linkless (data : list (gmap string (option string))) : nat :=
  length (filter (λ item, get item "link" = None) data).

Definition linkless_rows (db : database) : nat :=
  length (filter (λ r, link r = None) (rows db)).

(** The counters after [n] more records of one kind, and their sum. *)
Definition add_inserted (n : nat) (c : counts) : counts :=
  {| inserted := inserted c + n; duplicates := duplicates c;
     errors := errors c |}.

Definition add_duplicates (n : nat) (c : counts) : counts :=
  {| inserted := inserted c; duplicates := duplicates c + n;
     errors := errors c |}.

Definition add_errors (n : nat) (c : counts) : counts :=
  {| inserted := inserted c; duplicates := duplicates c;
     errors := errors c + n |}.

Definition total (c : counts) : nat := inserted c + duplicates c + errors c.

(** [count]: [SELECT COUNT( * ) FROM scraped_data]. *)
Definition count (db : database) : nat := length (rows db).

(** The UNIQUE constraint as a property of the table: no two rows hold the
    same non-NULL link. *)
Definition unique_links (db : database) : Prop :=
  NoDup (omap link (rows db)).


End Storage.

(** ** agent/storage.py: the CSV and JSON writers *)

Module CSVStorage.

(** A CSV file is held as the rows the [csv] module writes, each a list
    of cells, and the file system as the files by path. *)

(** The order of [sorted] on strings. *)
Definition string_le (a b : string) : Prop := String.leb a b = true.

#[global] Instance string_le_dec a b : Decision (string_le a b).
Proof. unfold string_le. apply _. Defined.

(** [fieldnames]: the keys of all the records, sorted. *)
Definition fieldnames (data : list (gmap string (option string)))
    : list string :=
  merge_sort string_le
    (elements (foldl (λ (keys : gset string) item, keys ∪ dom item) ∅ data)).

(** [DictWriter._dict_to_list]: a key outside the field names is a
    [ValueError] ([None] here); a missing key and a [None] value are
    written as the empty cell. *)
Definition _dict_to_list (fields : list string)
    (rowdict : gmap string (option string)) : option (list string) :=
  if decide (dom rowdict ⊆ list_to_set fields)
  then Some ((λ key, default "" (Storage.get rowdict key)) <$> fields)
  else None.

(** [CSVStorage.save]; [None] when writing raises. *)
Definition save (files : gmap string (list (list string)))
    (data : list (gmap string (option string))) (output_path : string)
    (append : bool) : option (gmap string (list (list string))) :=
  match data with
  | [] => Some files
  | _ :: _ =>
      let fields := fieldnames data in
      let old := if append then default [] (files !! output_path) else [] in
      let header := if append then [] else [fields] in
      rows ← mapM (_dict_to_list fields) data;
      Some (<[output_path := old ++ header ++ rows]> files)
  end.

(** The cells of a record under the header of its batch. *)
Definition cells (data : list (gmap string (option string)))
    (item : gmap string (option string)) : list string :=
  (λ key, default "" (Storage.get item key)) <$> fieldnames data.

End CSVStorage.

Module JSONStorage.

(** What [json.load] reads and [json.dump] writes; an object keeps its
    pairs in the order of the text. *)
#[local] Unset Elimination Schemes.
Inductive json : Type :=
  | JNull
  | JBool (b : bool)
  | JInt (z : Z)
  | JStr (s : string)
  | JList (items : list json)
  | JObject (fields : list (string * json)).
#[local] Set Elimination Schemes.

(** Subscript of the dictionary that [json.load] builds from an object:
    of two pairs with one key the later wins. *)
Definition obj_get (fields : list (string * json)) (key : string)
    : option json :=
  AutoDetect.dict_get (reverse fields) key.

(** [JSONStorage.save], at the time [scraped_at], on the files that hold
    a JSON document, by path, when the file can be written. *)
Definition save (scraped_at : string) (files : gmap string json)
    (data : list json) (output_path : string) : gmap string json :=
  match data with
  | [] => files
  | _ :: _ =>
      let output :=
        JObject [("scraped_at", JStr scraped_at);
                 ("total_items", JInt (Z.of_nat (length data)));
                 ("data", JList data)] in
      <[output_path := output]> files
  end.

(** [JSONStorage.load]: the [data] of an envelope, any other document as
    it is, the empty list when reading raises (a path that is absent
    stands for a file that cannot be opened or parsed). *)
Definition load (files : gmap string json) (input_path : string) : json :=
  match files !! input_path with
  | Some content =>
      match content with
      | JObject fields =>
          match obj_get fields "data" with
          | Some data => data
          | None => content
          end
      | _ => content
      end
  | None => JList []
  end.

End JSONStorage.


(** ** Pages used as concrete inputs *)

Module Inputs.

Definition blank_element : ElementHandle :=
  mkElement (Ok "") (λ _, Ok None) (λ _, Ok None).

(** A page on which a selector matches as many elements as [counts] says,
    or whose query raises where [counts] does. *)
Definition page_of_counts (counts : string → result nat) : Page :=
  mkPage (λ selector, (λ n, replicate n blank_element) <$> counts selector)
         (λ _, Raise PlaywrightError).

(** Five [article] elements, two hundred [.item] elements. *)
Definition five_articles : AutoDetect.AutoDetector :=
  AutoDetect.mkAutoDetector
    (page_of_counts (λ selector,
       if String.eqb selector "article" then Ok 5
       else if String.eqb selector ".item" then Ok 200
       else Ok 0))
    "example.com".

(** Two hundred [article] elements, five [.item] elements. *)
Definition five_items : AutoDetect.AutoDetector :=
  AutoDetect.mkAutoDetector
    (page_of_counts (λ selector,
       if String.eqb selector "article" then Ok 200
       else if String.eqb selector ".item" then Ok 5
       else Ok 0))
    "example.com".

(** No selector matches anything. *)
Definition empty_page : AutoDetect.AutoDetector :=
  AutoDetect.mkAutoDetector (page_of_counts (λ _, Ok 0)) "example.com".

(** The query for [article] raises; every other selector matches nothing. *)
Definition article_query_fails : AutoDetect.AutoDetector :=
  AutoDetect.mkAutoDetector
    (page_of_counts (λ selector,
       if String.eqb selector "article" then Raise PlaywrightError else Ok 0))
    "example.com".

(** The query for [.post] raises; [.card] matches four elements. *)
Definition post_query_fails : AutoDetect.AutoDetector :=
  AutoDetect.mkAutoDetector
    (page_of_counts (λ selector,
       if String.eqb selector ".post" then Raise PlaywrightError
       else if String.eqb selector ".card" then Ok 4
       else Ok 0))
    "example.com".

(** A registered domain behind a page whose every query raises. *)
Definition medium_broken_page : AutoDetect.AutoDetector :=
  AutoDetect.mkAutoDetector (page_of_counts (λ _, Raise PlaywrightError))
    "medium.com".

(** Python's [str.strip] on ASCII text. *)
Definition is_space (a : Ascii.ascii) : bool :=
  let n := Ascii.nat_of_ascii a in
  (n =? 32) || ((9 <=? n) && (n <=? 13)) || ((28 <=? n) && (n <=? 31)).

Fixpoint lstrip (s : string) : string :=
  match s with
  | EmptyString => EmptyString
  | String a rest => if is_space a then lstrip rest else s
  end.

Fixpoint rstrip (s : string) : string :=
  match s with
  | EmptyString => EmptyString
  | String a rest =>
      let rest' := rstrip rest in
      if is_space a && String.eqb rest' "" then EmptyString
      else String a rest'
  end.

Definition ascii_strip (s : string) : string := rstrip (lstrip s).

(** Elements: one with a text, one whose text cannot be read, an anchor,
    and a container that answers [query_selector] from a table. *)
Definition text_element (s : string) : ElementHandle :=
  mkElement (Ok s) (λ _, Ok None) (λ _, Ok None).

Definition detached_element : ElementHandle :=
  mkElement (Raise PlaywrightError) (λ _, Ok None) (λ _, Ok None).

Definition anchor (href : string) : ElementHandle :=
  mkElement (Ok "")
    (λ name, if String.eqb name "href" then Ok (Some href) else Ok None)
    (λ _, Ok None).

Definition container_of (children : list (string * ElementHandle))
    : ElementHandle :=
  mkElement (Ok "") (λ _, Ok None)
    (λ selector, Ok (AutoDetect.dict_get children selector)).

(** A page whose container selector matches [containers], with a URL
    resolution that answers the same address for every link. *)
Definition scraper_on (containers : list ElementHandle) : Scraper.WebScraper :=
  Scraper.mkWebScraper
    (mkPage
       (λ selector,
          if String.eqb selector (Scraper.sel_container Scraper.DEFAULT_SELECTORS)
          then Ok containers else Ok [])
       (λ _, Ok "https://example.com/a"))
    Scraper.DEFAULT_SELECTORS.

Definition titled (s : string) : ElementHandle :=
  container_of [(Scraper.sel_title Scraper.DEFAULT_SELECTORS, text_element s)].

(** A container with an author, a date and a content, and neither title
    nor link. *)
Definition untitled : ElementHandle :=
  container_of
    [(Scraper.sel_author Scraper.DEFAULT_SELECTORS, text_element "Ana");
     (Scraper.sel_date Scraper.DEFAULT_SELECTORS, text_element "2024-01-01");
     (Scraper.sel_content Scraper.DEFAULT_SELECTORS, text_element "Body")].

(** A container whose title reads well and whose author element fails. *)
Definition author_fails : ElementHandle :=
  container_of
    [(Scraper.sel_title Scraper.DEFAULT_SELECTORS, text_element "First");
     (Scraper.sel_author Scraper.DEFAULT_SELECTORS, detached_element)].

Definition linked : ElementHandle :=
  container_of [(Scraper.sel_link Scraper.DEFAULT_SELECTORS, anchor "/a")].

Definition ten_containers : list ElementHandle :=
  titled <$> ["1"; "2"; "3"; "4"; "5"; "6"; "7"; "8"; "9"; "10"].


(** An engine that never fails, at time [t]; one whose second [execute]
    of a batch fails; one whose [commit] fails. *)
Definition healthy_env (t : Z) : Storage.env :=
  Storage.mkEnv t (λ _, None) None.

Definition second_execute_fails (t : Z) : Storage.env :=
  Storage.mkEnv t (λ i, if i =? 1 then Some DatabaseError else None) None.

Definition commit_fails (t : Z) : Storage.env :=
  Storage.mkEnv t (λ _, None) (Some DatabaseError).

Definition linked_record (t l : string) : gmap string (option string) :=
  list_to_map [("title", Some t); ("link", Some l)].

(** Three records with three links. *)
Definition three_links : list (gmap string (option string)) :=
  [linked_record "a" "https://example.com/1";
   linked_record "b" "https://example.com/2";
   linked_record "c" "https://example.com/3"].

(** A record with no [link] key, one whose [link] is [None], and one with
    a link. *)
Definition two_linkless : list (gmap string (option string)) :=
  [list_to_map [("title", Some "x")];
   list_to_map [("title", Some "y"); ("link", None)];
   linked_record "a" "https://example.com/1"].

(** A table that holds one linkless row and one row with a link. *)
Definition small_table : Storage.database :=
  Storage.mkDatabase
    [Storage.mkRow 1 (Some "old") None None None None 5;
     Storage.mkRow 2 (Some "a") None None (Some "https://example.com/1") None 5]
    2.


(** The query for [time] raises, [[datetime]] matches nothing, [.date]
    matches two elements, [h2] three and [.headline] one. *)
Definition dated_page : AutoDetect.AutoDetector :=
  AutoDetect.mkAutoDetector
    (page_of_counts (λ selector,
       if String.eqb selector "time" then Raise PlaywrightError
       else if String.eqb selector ".date" then Ok 2
       else if String.eqb selector "h2" then Ok 3
       else if String.eqb selector ".headline" then Ok 1
       else Ok 0))
    "example.com".


(** A page that grows twice and then keeps its height. *)
Definition grows_twice : Scraper.scroll_env :=
  Scraper.mkScrollEnv
    (λ k, Ok (match k with 0 => 1000%Z | 1 => 2000%Z | _ => 3000%Z end))
    (λ _, Ok ()).

(** A date element with a [datetime] attribute and a text. *)
Definition time_element (datetime text : string) : ElementHandle :=
  mkElement (Ok text)
    (λ name, if String.eqb name "datetime" then Ok (Some datetime) else Ok None)
    (λ _, Ok None).

Definition dated (datetime text : string) : ElementHandle :=
  container_of
    [(Scraper.sel_title Scraper.DEFAULT_SELECTORS, text_element "News");
     (Scraper.sel_date Scraper.DEFAULT_SELECTORS, time_element datetime text)].


(** A new link, a record whose [execute] will fail, a link that
    [small_table] holds already; and the table after that batch. *)
Definition mixed_batch : list (gmap string (option string)) :=
  [linked_record "n" "https://example.com/9";
   linked_record "m" "https://example.com/8";
   linked_record "a" "https://example.com/1"].

Definition after_mixed_batch : Storage.database :=
  Storage.mkDatabase
    (Storage.rows small_table
     ++ [Storage.row_of 10 3 (linked_record "n" "https://example.com/9")])
    3.


Definition only_linkless : list (gmap string (option string)) :=
  [list_to_map [("title", Some "x")];
   list_to_map [("title", Some "y"); ("link", None)]].


(** Two records with different keys, one value being [None]. *)
Definition two_shapes : list (gmap string (option string)) :=
  [list_to_map [("title", Some "T1"); ("link", Some "L1")];
   list_to_map [("author", Some "A2"); ("title", None)]].


End Inputs.

(** * Properties *)

(** Reduces the binds of [result] on a value that is known, and nothing
    else. *)
Ltac step_bind :=
  cbv beta iota delta [mbind result_bind fmap result_fmap mret result_ret].

Lemma truthy_Some (v : option string) :
  truthy v = true ↔ ∃ s, v = Some s ∧ s ≠ "".
Proof.
  destruct v as [s|]; simpl.
  - rewrite negb_true_iff. split.
    + intros H. exists s. split; [done|]. by apply String.eqb_neq.
    + intros (s' & [= <-] & Hne). by apply String.eqb_neq.
  - split; [done|]. by intros (s & ? & _).
Qed.

Lemma append_String (a : Ascii.ascii) (s t : string) :
  String a s +:+ t = String a (s +:+ t).
Proof. reflexivity. Qed.

Lemma append_empty (t : string) : "" +:+ t = t.
Proof. reflexivity. Qed.

Lemma prefix_append (n h : string) :
  String.prefix n h = true ↔ ∃ post, h = n +:+ post.
Proof.
  revert h. induction n as [|a n IH]; intros h.
  - split; [intros _; by exists h | by destruct h].
  - destruct h as [|b h]; simpl; [split; [done | by intros (? & ?)]|].
    setoid_rewrite append_String.
    destruct (Ascii.ascii_dec a b) as [->|Hne].
    + rewrite IH. split; intros (post & Hp); exists post; congruence.
    + split; [done|]. intros (post & [= ? _]). congruence.
Qed.

(** [contains] is the occurrence of the needle somewhere in the string. *)
Lemma contains_occurs (n h : string) :
  contains n h = true ↔ ∃ pre post, h = pre +:+ n +:+ post.
Proof.
  induction h as [|b h IH]; cbn [contains].
  - rewrite orb_false_r, prefix_append. split.
    + intros (post & ->). by exists "", post.
    + intros (pre & post & Hp). destruct pre; [by exists post|done].
  - rewrite orb_true_iff, prefix_append, IH. split.
    + intros [(post & ->) | (pre & post & ->)].
      * by exists "", post.
      * by exists (String b pre), post.
    + intros (pre & post & Hp). destruct pre as [|c pre].
      * left. by exists post.
      * right. rewrite append_String in Hp. injection Hp as -> ->.
        by exists pre, post.
Qed.

Lemma append_empty_r (k : string) : k +:+ "" = k.
Proof.
  induction k as [|a k IH]; [done|]. by rewrite append_String, IH.
Qed.

Lemma contains_refl (k : string) : contains k k = true.
Proof.
  apply contains_occurs. exists "", "". by rewrite append_empty, append_empty_r.
Qed.

Module AutoDetectFacts.

Import AutoDetect.

Lemma dict_get_elem {V} (d : list (string * V)) k v :
  dict_get d k = Some v → (k, v) ∈ d.
Proof.
  induction d as [|[k' v'] d IH]; simpl; [done|].
  destruct (String.eqb_spec k' k) as [->|_].
  - intros [= ->]. left.
  - intros H. right. auto.
Qed.

Lemma partial_match_elem templates dom t :
  partial_match templates dom = Some t →
  ∃ k, (k, t) ∈ templates ∧ contains k dom = true.
Proof.
  induction templates as [|[k' t'] ts IH]; simpl; [done|].
  destruct (contains k' dom) eqn:Hc.
  - intros [= ->]. exists k'. split; [left | done].
  - intros H. destruct (IH H) as (k & ? & ?). exists k. split; [by right | done].
Qed.

(** The loop returns the template of the first key that occurs in the
    domain. *)
Lemma partial_match_first templates dom before k t after :
  templates = before ++ (k, t) :: after →
  (∀ k' t', (k', t') ∈ before → contains k' dom = false) →
  contains k dom = true →
  partial_match templates dom = Some t.
Proof.
  intros -> Hbefore Hk.
  induction before as [|[k' t'] before IH]; simpl.
  - by rewrite Hk.
  - rewrite (Hbefore k' t') by left.
    apply IH. intros k'' t'' Hin. apply (Hbefore k'' t''). by right.
Qed.

Lemma partial_match_None templates dom :
  partial_match templates dom = None ↔
  ∀ k t, (k, t) ∈ templates → contains k dom = false.
Proof.
  induction templates as [|[k' t'] ts IH]; simpl.
  - split; [|done]. intros _ k t Hin. by apply elem_of_nil in Hin.
  - destruct (contains k' dom) eqn:Hc.
    + split; [done|]. intros H. specialize (H k' t'). rewrite Hc in H.
      discriminate H. left.
    + rewrite IH. split.
      * intros H k t [[= -> ->]|Hin]%elem_of_cons; [done | eauto].
      * intros H k t Hin. apply (H k t). by right.
Qed.

Lemma try_template_in_None templates dom :
  try_template_in templates dom = None ↔
  ∀ k t, (k, t) ∈ templates → contains k dom = false.
Proof.
  unfold try_template_in. destruct (dict_get templates dom) as [t|] eqn:Hget.
  - split; [done|]. intros H. apply dict_get_elem in Hget.
    specialize (H _ _ Hget). by rewrite contains_refl in H.
  - apply partial_match_None.
Qed.

Lemma try_template_in_elem templates dom t :
  try_template_in templates dom = Some t → ∃ k, (k, t) ∈ templates.
Proof.
  unfold try_template_in. destruct (dict_get templates dom) as [t'|] eqn:Hget.
  - intros [= <-]. apply dict_get_elem in Hget. eauto.
  - intros (k & ? & _)%partial_match_elem. eauto.
Qed.

(** Every registered template is a dictionary that [if template:] takes
    for true. *)
Lemma SITE_TEMPLATES_nonempty k t : (k, t) ∈ SITE_TEMPLATES → t ≠ ∅.
Proof.
  intros Hin Hempty. subst t.
  assert (Forall (λ kt : string * gmap string string,
                    is_Some (kt.2 !! "container")) SITE_TEMPLATES) as Hall.
  { unfold SITE_TEMPLATES. repeat constructor; by vm_compute; eexists. }
  rewrite Forall_forall in Hall. destruct (Hall _ Hin) as [v Hv].
  simpl in Hv. by rewrite lookup_empty in Hv.
Qed.

Lemma detect_template self t : _try_template self = Some t → detect self = Ok t.
Proof.
  intros Ht. unfold detect. rewrite Ht.
  destruct (try_template_in_elem _ _ _ Ht) as (k & Hin).
  apply SITE_TEMPLATES_nonempty in Hin. by destruct (decide (t = ∅)).
Qed.

Lemma detect_heuristic self :
  _try_template self = None → detect self = _heuristic_detection self.
Proof. intros Ht. unfold detect. by rewrite Ht. Qed.

(** C4. Template lookup.  A domain that is a key of the registry gets the
    registered dictionary itself, whatever the page answers, so without
    any heuristic probe; a domain that is no key gets the template of the
    first key, in the order of the registry, that occurs in it; and the
    lookup gives nothing, leaving detection to the heuristics, exactly
    when no key occurs in the domain. *)
Theorem template_lookup (self : AutoDetector) :
  (∀ t, dict_get SITE_TEMPLATES (domain self) = Some t → detect self = Ok t)
  ∧ (dict_get SITE_TEMPLATES (domain self) = None →
     ∀ before k t after,
       SITE_TEMPLATES = before ++ (k, t) :: after →
       (∀ k' t', (k', t') ∈ before → contains k' (domain self) = false) →
       contains k (domain self) = true →
       detect self = Ok t)
  ∧ (_try_template self = None ↔
     ∀ k t, (k, t) ∈ SITE_TEMPLATES → contains k (domain self) = false)
  ∧ (_try_template self = None → detect self = _heuristic_detection self)
  ∧ (∀ t, _try_template self = Some t → detect self = Ok t).
Proof.
  split_and!.
  - intros t Hget. apply detect_template.
    unfold _try_template, try_template_in. by rewrite Hget.
  - intros Hget before k t after Hsplit Hbefore Hk. apply detect_template.
    unfold _try_template, try_template_in. rewrite Hget.
    by eapply partial_match_first.
  - apply try_template_in_None.
  - apply detect_heuristic.
  - apply detect_template.
Qed.

(** Examples of the three cases of the lookup. *)
Example exact_match_ignores_page :
  detect Inputs.medium_broken_page = Ok (default ∅ (dict_get SITE_TEMPLATES "medium.com"))
  ∧ _heuristic_detection Inputs.medium_broken_page = Raise PlaywrightError.
Proof. split; vm_compute; reflexivity. Qed.

Example partial_match_subdomain (p : Page) :
  detect (mkAutoDetector p "en.wikipedia.org")
  = Ok (default ∅ (dict_get SITE_TEMPLATES "wikipedia.org")).
Proof. apply detect_template. vm_compute. reflexivity. Qed.

Example partial_match_takes_first_key (p : Page) :
  detect (mkAutoDetector p "esporte.folha.uol.com.br")
  = Ok (default ∅ (dict_get SITE_TEMPLATES "uol.com.br")).
Proof. apply detect_template. vm_compute. reflexivity. Qed.

Example no_match_example : _try_template Inputs.empty_page = None.
Proof. vm_compute. reflexivity. Qed.

(** *** The candidate loops *)

Lemma in_range_spec n : in_range n = true ↔ 3 ≤ n ≤ 100.
Proof.
  unfold in_range. rewrite andb_true_iff, !Nat.leb_le. lia.
Qed.

Lemma probe_loop_elem accept self candidates x :
  probe_loop accept self candidates = Ok (Some x) → x ∈ candidates.
Proof.
  induction candidates as [|c cs IH]; simpl; [done|].
  destruct (count self c) as [n|e]; simpl; [|done].
  destruct (accept n).
  - intros [= ->]. left.
  - intros H. right. auto.
Qed.

Lemma probe_loop_raises accept self candidates e :
  probe_loop accept self candidates = Raise e →
  ∃ c, c ∈ candidates ∧ raises (count self c).
Proof.
  induction candidates as [|c cs IH]; simpl; [done|].
  destruct (count self c) as [n|e'] eqn:Hc; simpl.
  - destruct (accept n); [done|]. intros H.
    destruct (IH H) as (c' & ? & ?). exists c'. split; [by right | done].
  - intros _. exists c. split; [left | by rewrite Hc].
Qed.

Lemma guarded_probe_loop_elem accept self candidates x :
  guarded_probe_loop accept self candidates = Some x → x ∈ candidates.
Proof.
  induction candidates as [|c cs IH]; simpl; [done|].
  destruct (count self c) as [n|e]; [destruct (accept n)|].
  - intros [= ->]. left.
  - intros H. right. auto.
  - intros H. right. auto.
Qed.

Lemma guarded_probe_loop_first accept self before c after :
  (∀ x, x ∈ before → refused accept self x) →
  accepted accept self c →
  guarded_probe_loop accept self (before ++ c :: after) = Some c.
Proof.
  intros Hbefore (n & Hn & Hacc).
  induction before as [|b before IH]; simpl.
  - by rewrite Hn, Hacc.
  - destruct (Hbefore b) as (m & -> & ->); [left|].
    apply IH. intros x Hx. apply Hbefore. by right.
Qed.

(** The two loops of a detector one after the other behave as one search
    for the first accepted candidate, as long as the probes before it
    answer. *)
Lemma two_loops_first accept self l1 l2 before c after :
  l1 ++ l2 = before ++ c :: after →
  (∀ x, x ∈ before → refused accept self x) →
  accepted accept self c →
  (probe_loop accept self l1 = Ok (Some c))
  ∨ (probe_loop accept self l1 = Ok None
     ∧ guarded_probe_loop accept self l2 = Some c).
Proof.
  revert before. induction l1 as [|x l1 IH]; intros before Hsplit Hbefore Hc.
  - right. split; [done|]. simpl in Hsplit. subst l2.
    by apply guarded_probe_loop_first.
  - destruct before as [|b before]; simpl in Hsplit; injection Hsplit as -> Hrest.
    + left. destruct Hc as (n & Hn & Hacc). simpl. by rewrite Hn; simpl; rewrite Hacc.
    + destruct (Hbefore b) as (m & Hm & Hrej); [left|].
      simpl. rewrite Hm; simpl; rewrite Hrej.
      apply (IH before); [done| |done].
      intros y Hy. apply Hbefore. by right.
Qed.

(** C5. Container detection returns the first candidate, in the order
    semantic tags then class patterns, whose match count lies in the
    closed interval from 3 to 100: candidates before it whose counts lie
    outside the interval (below 3 or above 100, so also a count of 200)
    are passed over. *)
Theorem detect_container_first_in_range (self : AutoDetector)
    (before after : list string) (c : string) :
  semantic_tags ++ common_classes = before ++ c :: after →
  (∀ x, x ∈ before → ∃ n, count self x = Ok n ∧ ¬ (3 ≤ n ≤ 100)) →
  (∃ n, count self c = Ok n ∧ 3 ≤ n ≤ 100) →
  _detect_container self = Ok c.
Proof.
  intros Hsplit Hbefore (n & Hn & Hin).
  assert (accepted in_range self c) as Hc.
  { exists n. split; [done|]. by apply in_range_spec. }
  assert (∀ x, x ∈ before → refused in_range self x) as Hrefused.
  { intros x Hx. destruct (Hbefore x Hx) as (m & Hm & Hout).
    exists m. split; [done|]. apply not_true_is_false.
    by rewrite in_range_spec. }
  unfold _detect_container.
  destruct (two_loops_first _ _ _ _ _ _ _ Hsplit Hrefused Hc)
    as [-> | [-> ->]]; done.
Qed.

(** The instance of the specification (five [article], two hundred
    [.item]) and its mirror image, where the out-of-range [article] and
    the candidates after it are passed over for [.item]. *)
Lemma detect_container_first_in_range_witness :
  _detect_container Inputs.five_articles = Ok "article"
  ∧ _detect_container Inputs.five_items = Ok ".item".
Proof.
  split.
  - apply (detect_container_first_in_range Inputs.five_articles []
             (tail (semantic_tags ++ common_classes)) "article").
    + reflexivity.
    + intros x Hx. by apply elem_of_nil in Hx.
    + exists 5. split; [reflexivity | lia].
  - apply (detect_container_first_in_range Inputs.five_items
             (take 5 (semantic_tags ++ common_classes))
             (drop 6 (semantic_tags ++ common_classes)) ".item").
    + reflexivity.
    + intros x Hx. vm_compute in Hx.
      repeat (apply elem_of_cons in Hx as [->|Hx]);
        [exists 200; split; [reflexivity | lia]
        |exists 0; split; [reflexivity | lia] ..
        |by apply elem_of_nil in Hx].
    + exists 5. split; [reflexivity | lia].
Defined.

(** *** The heuristic dictionary *)

Lemma detect_container_candidates self c :
  _detect_container self = Ok c →
  c ∈ semantic_tags ++ common_classes ++ [container_fallback].
Proof.
  unfold _detect_container. rewrite !elem_of_app.
  destruct (probe_loop in_range self semantic_tags) as [[tag|]|e] eqn:Hp;
    step_bind; [| |done].
  - intros [= <-]. left. by eapply probe_loop_elem.
  - destruct (guarded_probe_loop in_range self common_classes) as [s|] eqn:Hg;
      intros [= <-].
    + right; left. by eapply guarded_probe_loop_elem.
    + right; right. left.
Qed.

Lemma container_candidates_nonempty c :
  c ∈ semantic_tags ++ common_classes ++ [container_fallback] → c ≠ "".
Proof.
  intros Hin.
  assert (Forall (λ s, s ≠ "")
            (semantic_tags ++ common_classes ++ [container_fallback])) as Hall.
  { vm_compute. repeat constructor; discriminate. }
  rewrite Forall_forall in Hall. auto.
Qed.

Lemma detect_container_raises self e :
  _detect_container self = Raise e →
  ∃ c, c ∈ semantic_tags ∧ raises (count self c).
Proof.
  unfold _detect_container.
  destruct (probe_loop in_range self semantic_tags) as [[tag|]|e'] eqn:Hp;
    step_bind; [done| |].
  - by destruct (guarded_probe_loop in_range self common_classes).
  - intros _. by eapply probe_loop_raises.
Qed.

Lemma detect_title_raises self e :
  _detect_title self = Raise e →
  ∃ c, c ∈ headings ∧ raises (count self c).
Proof.
  unfold _detect_title.
  destruct (probe_loop positive self headings) as [[tag|]|e'] eqn:Hp;
    step_bind; [done| |].
  - by destruct (guarded_probe_loop positive self title_classes).
  - intros _. by eapply probe_loop_raises.
Qed.

(** What the heuristic dictionary holds under its keys. *)
Lemma heuristic_detection_fields self s :
  _heuristic_detection self = Ok s →
  ∃ c t, _detect_container self = Ok c ∧ _detect_title self = Ok t
    ∧ s !! "container" = Some c
    ∧ s !! "title" = Some t
    ∧ s !! "author" = Some (_detect_author self)
    ∧ s !! "date" = Some (_detect_date self)
    ∧ s !! "content" = Some (_detect_content self)
    ∧ s !! "link" = Some "a[href]".
Proof.
  unfold _heuristic_detection.
  destruct (_detect_container self) as [c|e]; step_bind; [|done].
  destruct (_detect_title self) as [t|e]; step_bind; [|done].
  intros [= <-]. exists c, t. split_and!; try done; by simplify_map_eq.
Qed.

(** C2. For a domain in which no registered key occurs, every dictionary
    that [detect] returns has a non-empty string under [container] and
    under [link], whatever the candidates match; and [detect] does return
    one as soon as the probes of the semantic tags and of the headings
    answer, in particular when every count is refused. *)
Theorem detect_unregistered_container_link (self : AutoDetector) :
  (∀ k t, (k, t) ∈ SITE_TEMPLATES → contains k (domain self) = false) →
  (∀ s, detect self = Ok s →
     truthy (s !! "container") = true ∧ truthy (s !! "link") = true)
  ∧ ((∀ c, c ∈ semantic_tags ++ headings → ¬ raises (count self c)) →
     ∃ s, detect self = Ok s).
Proof.
  intros Hnone. apply try_template_in_None in Hnone.
  rewrite (detect_heuristic self Hnone). split.
  - intros s Hs.
    destruct (heuristic_detection_fields _ _ Hs)
      as (c & t & Hc & _ & -> & _ & _ & _ & _ & ->).
    split; [|done]. apply truthy_Some. exists c. split; [done|].
    apply container_candidates_nonempty.
    by apply (detect_container_candidates self).
  - intros Hprobes. unfold _heuristic_detection.
    destruct (_detect_container self) as [c|e] eqn:Hc; step_bind.
    + destruct (_detect_title self) as [t|e] eqn:Ht; step_bind; [eauto|].
      destruct (detect_title_raises _ _ Ht) as (h & Hh & Hraise).
      destruct (Hprobes h); [|done]. apply elem_of_app. by right.
    + destruct (detect_container_raises _ _ Hc) as (h & Hh & Hraise).
      destruct (Hprobes h); [|done]. apply elem_of_app. by left.
Qed.

(** On a page where nothing matches, every count is refused and the
    dictionary is made of the fallback selectors. *)
Lemma detect_unregistered_container_link_witness :
  ∃ s, detect Inputs.empty_page = Ok s
    ∧ s !! "container" = Some container_fallback
    ∧ truthy (s !! "container") = true ∧ truthy (s !! "link") = true.
Proof.
  assert (∀ k t, (k, t) ∈ SITE_TEMPLATES →
            contains k (domain Inputs.empty_page) = false) as Hnone.
  { apply try_template_in_None. vm_compute. reflexivity. }
  destruct (detect_unregistered_container_link Inputs.empty_page Hnone)
    as [Hfields Hreturns].
  exists (default ∅ (match detect Inputs.empty_page with
                     | Ok s => Some s | Raise _ => None end)).
  split; [vm_compute; reflexivity|].
  split; [vm_compute; reflexivity|].
  apply Hfields. vm_compute. reflexivity.
Defined.

(** *** Probes that raise *)

(** Under [try: ... except: continue] a probe that raises is passed over
    like a refused count. *)
Lemma guarded_probe_loop_skips_raise accept self c rest :
  raises (count self c) →
  guarded_probe_loop accept self (c :: rest)
  = guarded_probe_loop accept self rest.
Proof. simpl. by destruct (count self c). Qed.

(** The loops over [semantic_tags] and [headings] have no [try]. *)
Lemma probe_loop_raise accept self c rest :
  raises (count self c) → raises (probe_loop accept self (c :: rest)).
Proof. simpl. by destruct (count self c). Qed.

(** C6, at the failing input.  The query for [article] raises and every
    other selector matches nothing: [_detect_container] and [detect] raise
    instead of passing to the next candidate, while the same failure on
    the guarded candidate [.post] is passed over. *)
Theorem semantic_probe_failure_aborts :
  _try_template Inputs.article_query_fails = None
  ∧ _detect_container Inputs.article_query_fails = Raise PlaywrightError
  ∧ detect Inputs.article_query_fails = Raise PlaywrightError
  ∧ _detect_container Inputs.post_query_fails = Ok ".card".
Proof. split_and!; vm_compute; reflexivity. Qed.


End AutoDetectFacts.

Module ScraperFacts.

Import Scraper.

Section WithStrip.

Context (strip : string → string).

(** The loop appends to [data] what each container contributes, in
    order. *)
Lemma extract_loop_flat_map self containers data :
  extract_loop strip self containers data
  = data ++ flat_map (record_of strip self) containers.
Proof.
  revert data. induction containers as [|c cs IH]; intros data; simpl.
  - by rewrite app_nil_r.
  - unfold record_of at 1.
    destruct (_extract_item_data strip self c) as [item|e]; [|done].
    destruct (has_title_or_link item); [|done].
    by rewrite IH, <- app_assoc.
Qed.

(** The containers that [extract_data] hands to its loop. *)
Lemma extract_data_flat_map self max_items :
  extract_data strip self max_items
  = match query_selector_all (page self) (sel_container (SELECTORS self)) with
    | Ok containers =>
        flat_map (record_of strip self)
          (if is_set max_items
           then slice_to containers (default 0%Z max_items)
           else containers)
    | Raise _ => []
    end.
Proof.
  unfold extract_data.
  destruct (query_selector_all _ _) as [cs|e]; [|done].
  by rewrite extract_loop_flat_map.
Qed.

Lemma record_of_kept self c r :
  r ∈ record_of strip self c →
  _extract_item_data strip self c = Ok r ∧ has_title_or_link r = true.
Proof.
  unfold record_of.
  destruct (_extract_item_data strip self c) as [item|e];
    [|by intros ?%elem_of_nil].
  destruct (has_title_or_link item) eqn:Hk; [|by intros ?%elem_of_nil].
  by intros ->%list_elem_of_singleton.
Qed.

Lemma elem_of_flat_map {A B} (f : A → list B) (l : list A) (y : B) :
  y ∈ flat_map f l ↔ ∃ x, x ∈ l ∧ y ∈ f x.
Proof.
  rewrite list_elem_of_In, in_flat_map.
  by setoid_rewrite list_elem_of_In.
Qed.

(** Every record of the output is what [_extract_item_data] returned for
    one of the containers of the page, and passed the test. *)
Lemma extract_data_elem self max_items r :
  r ∈ extract_data strip self max_items →
  ∃ cs c, query_selector_all (page self) (sel_container (SELECTORS self)) = Ok cs
    ∧ c ∈ cs
    ∧ _extract_item_data strip self c = Ok r
    ∧ has_title_or_link r = true.
Proof.
  rewrite extract_data_flat_map.
  destruct (query_selector_all _ _) as [cs|e]; [|by intros ?%elem_of_nil].
  intros (c & Hc & Hr)%elem_of_flat_map. apply record_of_kept in Hr as [? ?].
  exists cs, c. split_and!; try done.
  destruct (is_set max_items); [|done].
  unfold slice_to in Hc.
  destruct (0 <=? default 0 max_items)%Z;
    match type of Hc with _ ∈ take ?n _ => rewrite <- (take_drop n cs) end;
    apply elem_of_app; by left.
Qed.

(** C3. Every record that [extract_data] returns has a non-empty title
    or a non-empty link, whatever the page, the limit, and the other
    fields of the record. *)
Theorem extract_data_title_or_link (self : WebScraper) (max_items : option Z)
    (r : gmap string string) :
  r ∈ extract_data strip self max_items →
  (∃ t, r !! "title" = Some t ∧ t ≠ "") ∨ (∃ l, r !! "link" = Some l ∧ l ≠ "").
Proof.
  intros (cs & c & _ & _ & _ & Hkept)%extract_data_elem.
  unfold has_title_or_link in Hkept. apply orb_true_iff in Hkept.
  by rewrite !truthy_Some in Hkept.
Qed.

(** C7, as amended.  A container whose extraction raises, for whichever
    field, contributes no record at all, and the batch goes on: the output
    is what the containers before it and after it contribute, in order. *)
Theorem failed_container_dropped (self : WebScraper) (max_items : option Z)
    (cs before after : list ElementHandle) (c : ElementHandle) :
  query_selector_all (page self) (sel_container (SELECTORS self)) = Ok cs →
  (if is_set max_items then slice_to cs (default 0%Z max_items) else cs)
    = before ++ c :: after →
  raises (_extract_item_data strip self c) →
  extract_data strip self max_items
  = flat_map (record_of strip self) before
    ++ flat_map (record_of strip self) after.
Proof.
  intros Hcs Hsplit Hraise.
  rewrite extract_data_flat_map, Hcs, Hsplit, flat_map_app. simpl.
  unfold record_of at 2.
  by destruct (_extract_item_data strip self c).
Qed.

(** An error in the query or in the text of any one field is an error of
    the whole container: [_extract_item_data] has no handler of its own. *)
Lemma field_query_error_raises self c selector :
  selector ∈ [sel_title (SELECTORS self); sel_author (SELECTORS self);
              sel_date (SELECTORS self); sel_content (SELECTORS self);
              sel_link (SELECTORS self)] →
  raises (query_selector c selector) →
  raises (_extract_item_data strip self c).
Proof.
  intros Hin Hraise. unfold _extract_item_data.
  repeat (apply elem_of_cons in Hin as [->|Hin]);
    [..|by apply elem_of_nil in Hin];
    repeat match goal with
      | |- raises (Raise _) => exact I
      | H : raises (Ok _) |- _ => destruct H
      | |- context [query_selector c ?s] =>
          let q := fresh "q" in
          destruct (query_selector c s) as [[?|]|] eqn:q;
          rewrite ?q in *; step_bind
      | |- context [inner_text ?el] => destruct (inner_text el); step_bind
      | |- context [get_attribute ?el ?a] =>
          destruct (get_attribute el a) as [[?|]|]; step_bind
      | |- context [truthy ?v] => destruct (truthy v); step_bind
      | |- context [evaluate ?p ?a] => destruct (evaluate p a); step_bind
      end.
Qed.


(** A limit of zero is not a limit for [if max_items:], and a negative
    one cuts from the end, as a slice does. *)
Lemma max_items_zero_is_unset self :
  extract_data strip self (Some 0%Z) = extract_data strip self None.
Proof. reflexivity. Qed.

Lemma max_items_negative self n cs :
  (n < 0)%Z →
  query_selector_all (page self) (sel_container (SELECTORS self)) = Ok cs →
  extract_data strip self (Some n)
  = flat_map (record_of strip self) (take (length cs - Z.to_nat (- n)) cs).
Proof.
  intros Hn Hcs. rewrite extract_data_flat_map, Hcs. simpl.
  destruct (Z.eqb_spec n 0) as [->|_]; [lia|]. simpl.
  unfold slice_to. destruct (Z.leb_spec 0 n); [lia | done].
Qed.


End WithStrip.


(** *** Concrete pages *)

Import Inputs.

(** Three containers: one with a title, one with author, date and content
    only, one with a link.  The second is not in the output. *)
Lemma extract_data_title_or_link_witness :
  extract_data ascii_strip (scraper_on [titled " Hello "; untitled; linked]) None
  = [ {["title" := "Hello"]}; {["link" := "https://example.com/a"]} ]
  ∧ ((∃ t, ({["title" := "Hello"]} : gmap string string) !! "title" = Some t
           ∧ t ≠ "")
     ∨ (∃ l, ({["title" := "Hello"]} : gmap string string) !! "link" = Some l
             ∧ l ≠ "")).
Proof.
  assert (extract_data ascii_strip
            (scraper_on [titled " Hello "; untitled; linked]) None
          = [ {["title" := "Hello"]}; {["link" := "https://example.com/a"]} ])
    as Hout by (vm_compute; reflexivity).
  split; [exact Hout|].
  apply (extract_data_title_or_link ascii_strip
           (scraper_on [titled " Hello "; untitled; linked]) None).
  rewrite Hout. left.
Defined.

Example untitled_has_other_fields :
  _extract_item_data ascii_strip (scraper_on []) untitled
  = Ok (list_to_map [("author", "Ana"); ("date", "2024-01-01");
                     ("content", "Body")]).
Proof. vm_compute. reflexivity. Qed.

(** C7, as stated, fails: the title of the first container is read
    without error, its author raises, and no record with that title is in
    the output; the second container is extracted all the same. *)
Lemma partial_record_not_yielded :
  query_selector author_fails (sel_title DEFAULT_SELECTORS)
    = Ok (Some (text_element "First"))
  ∧ extract_data ascii_strip (scraper_on [author_fails; titled "Second"]) None
    = [ {["title" := "Second"]} ]
  ∧ ¬ (∃ r, r ∈ extract_data ascii_strip
                  (scraper_on [author_fails; titled "Second"]) None
            ∧ r !! "title" = Some "First").
Proof.
  assert (extract_data ascii_strip
            (scraper_on [author_fails; titled "Second"]) None
          = [ {["title" := "Second"]} ])
    as Hout by (vm_compute; reflexivity).
  split_and!; [vm_compute; reflexivity | exact Hout |].
  rewrite Hout. intros (r & ->%list_elem_of_singleton & Hr).
  vm_compute in Hr. discriminate Hr.
Qed.

Lemma failed_container_dropped_witness :
  extract_data ascii_strip
    (scraper_on [titled "Zero"; author_fails; titled "Second"]) None
  = [ {["title" := "Zero"]}; {["title" := "Second"]} ].
Proof.
  rewrite (failed_container_dropped ascii_strip
             (scraper_on [titled "Zero"; author_fails; titled "Second"]) None
             [titled "Zero"; author_fails; titled "Second"]
             [titled "Zero"] [titled "Second"] author_fails).
  - vm_compute. reflexivity.
  - reflexivity.
  - reflexivity.
  - vm_compute. exact I.
Defined.



Example max_items_negative_example :
  extract_data ascii_strip (scraper_on ten_containers) (Some (-7)%Z)
  = [ {["title" := "1"]}; {["title" := "2"]}; {["title" := "3"]} ].
Proof. vm_compute. reflexivity. Qed.


End ScraperFacts.

Module StorageFacts.

Import Storage.

Lemma counts_eq (c c' : counts) :
  inserted c = inserted c' → duplicates c = duplicates c' →
  errors c = errors c' → c = c'.
Proof. destruct c, c'; simpl; congruence. Qed.

(** *** One record *)

Lemma execute_healthy E i db item :
  healthy E → execute E i db item = Ok (insert_or_ignore (now E) db item).
Proof. intros [Hexec _]. unfold execute. by rewrite Hexec. Qed.

(** A record whose link, if it has one, is not in the table becomes a new
    row and counts as inserted. *)
Lemma save_item_fresh E i db item c :
  healthy E →
  (∀ l, get item "link" = Some l → link_exists db l = false) →
  save_item E i db item c
  = ({| rows := rows db ++ [row_of (now E) (last_id db + 1) item];
        last_id := last_id db + 1 |}, add_inserted 1 c).
Proof.
  intros HE Hfresh. unfold save_item, insert_or_ignore.
  rewrite (execute_healthy _ _ _ _ HE). unfold insert_or_ignore.
  destruct (get item "link") as [l|]; [rewrite (Hfresh l eq_refl)|]; done.
Qed.

(** A record whose link is in the table leaves the table as it is and
    counts as a duplicate. *)
Lemma save_item_duplicate E i db item c l :
  healthy E →
  get item "link" = Some l → link_exists db l = true →
  save_item E i db item c = (db, add_duplicates 1 c).
Proof.
  intros HE Hl Hex. unfold save_item.
  rewrite (execute_healthy _ _ _ _ HE). unfold insert_or_ignore.
  by rewrite Hl, Hex.
Qed.

(** Each record moves exactly one counter, by one, whatever the engine
    does. *)
Lemma save_item_one_counter E i db item c :
  (save_item E i db item c).2 = add_inserted 1 c
  ∨ (save_item E i db item c).2 = add_duplicates 1 c
  ∨ (save_item E i db item c).2 = add_errors 1 c.
Proof.
  unfold save_item.
  destruct (execute E i db item) as [[db' rowcount]|[]]; simpl; auto.
  destruct (0 <? rowcount)%Z; simpl; auto.
Qed.

Lemma save_loop_total E i db data c :
  total (save_loop E i db data c).2 = total c + length data.
Proof.
  revert i db c. induction data as [|item rest IH]; intros i db c; simpl.
  - lia.
  - pose proof (save_item_one_counter E i db item c) as Hone.
    destruct (save_item E i db item c) as [db' c']. rewrite IH.
    simpl in Hone. unfold total.
    destruct Hone as [-> | [-> | ->]]; simpl; lia.
Qed.

(** *** A batch of new links, and the same batch again *)

Lemma link_exists_app db r l :
  link_exists {| rows := rows db ++ [r]; last_id := last_id db + 1 |} l
  = link_exists db l || bool_decide (link r = Some l).
Proof.
  unfold link_exists. simpl. rewrite existsb_app. simpl.
  by rewrite orb_false_r.
Qed.







(** *** Records without a link *)

Lemma linkless_cons item rest :
  linkless (item :: rest)
  = (if decide (get item "link" = None) then 1 else 0) + linkless rest.
Proof.
  unfold linkless. rewrite filter_cons. by case_decide.
Qed.

Lemma linkless_rows_app db r :
  linkless_rows {| rows := rows db ++ [r]; last_id := last_id db + 1 |}
  = linkless_rows db + (if decide (link r = None) then 1 else 0).
Proof.
  unfold linkless_rows. simpl. rewrite filter_app, length_app.
  rewrite filter_cons, filter_nil. by case_decide.
Qed.

Lemma linkless_le_length data : linkless data ≤ length data.
Proof. apply length_filter. Qed.

(** With an engine that does not fail, every linkless record of the
    batch adds a linkless row and moves the inserted counter; the
    duplicates are among the records that have a link. *)
Lemma save_loop_linkless E i db data c :
  healthy E →
  linkless_rows (save_loop E i db data c).1
    = linkless_rows db + linkless data
  ∧ inserted c + linkless data ≤ inserted (save_loop E i db data c).2
  ∧ duplicates (save_loop E i db data c).2 + linkless data
    ≤ duplicates c + length data
  ∧ errors (save_loop E i db data c).2 = errors c.
Proof.
  intros HE. revert i db c.
  induction data as [|item rest IH]; intros i db c.
  - simpl. unfold linkless. simpl. lia.
  - cbn [save_loop]. rewrite linkless_cons.
    destruct (get item "link") as [l|] eqn:Hl.
    + destruct (link_exists db l) eqn:Hex.
      * rewrite (save_item_duplicate _ _ _ _ _ l) by done.
        specialize (IH (S i) db (add_duplicates 1 c)).
        repeat case_decide; try done; simpl in *; lia.
      * rewrite save_item_fresh; [|done|by intros l'; rewrite Hl; intros [= <-]].
        match goal with |- context [save_loop E (S i) ?d rest ?k] =>
          specialize (IH (S i) d k) end.
        rewrite linkless_rows_app in IH. cbn [link row_of] in IH.
        rewrite Hl in IH. repeat case_decide; try done; simpl in *; lia.
    + rewrite save_item_fresh; [|done|by intros l'; rewrite Hl].
      match goal with |- context [save_loop E (S i) ?d rest ?k] =>
        specialize (IH (S i) d k) end.
      rewrite linkless_rows_app in IH. cbn [link row_of] in IH.
      rewrite Hl in IH. repeat case_decide; try done; simpl in *; lia.
Qed.

(** C9. A batch that holds records with a null or absent link, saved by
    an engine that does not fail into any table: each of them becomes a
    new linkless row, next to the linkless rows already there, and is
    counted as inserted; none of them is among the duplicates. *)
Theorem linkless_records_inserted (E : env) (db : database)
    (data : list (gmap string (option string))) :
  healthy E →
  0 < linkless data →
  ∃ db' c,
    save E db data = Ok (db', Some c)
    ∧ linkless_rows db' = linkless_rows db + linkless data
    ∧ linkless data ≤ inserted c
    ∧ duplicates c ≤ length data - linkless data
    ∧ errors c = 0.
Proof.
  intros HE Hsome.
  pose proof (save_loop_linkless E 0 db data
                {| inserted := 0; duplicates := 0; errors := 0 |} HE)
    as (Hrows & Hins & Hdup & Herr).
  unfold save. destruct data as [|item rest] eqn:Hdata; [by inversion Hsome|].
  rewrite <- Hdata in *.
  destruct (save_loop E 0 db data _) as [db' c].
  destruct HE as [_ ->]. exists db', c. simpl in *. split_and!; try done; lia.
Qed.

(** Two linkless records and a duplicate link, into a table that holds a
    linkless row already. *)
Lemma linkless_records_inserted_witness :
  ∃ db' c,
    save (Inputs.healthy_env 10) Inputs.small_table Inputs.two_linkless
    = Ok (db', Some c)
    ∧ linkless_rows db' = 1 + 2
    ∧ 2 ≤ inserted c
    ∧ duplicates c ≤ 3 - 2
    ∧ errors c = 0.
Proof.
  apply (linkless_records_inserted (Inputs.healthy_env 10) Inputs.small_table
           Inputs.two_linkless).
  - by split.
  - vm_compute. lia.
Defined.

Example linkless_records_example :
  (λ r, (r.1, r.2)) <$>
    (match save (Inputs.healthy_env 10) Inputs.small_table Inputs.two_linkless
     with Ok r => Some (length (rows r.1), r.2) | Raise _ => None end)
  = Some (4, Some {| inserted := 2; duplicates := 1; errors := 0 |}).
Proof. vm_compute. reflexivity. Qed.

(** *** The three counters *)

(** C10. Whatever the engine does at each [execute], every record moves
    exactly one of the three counters by one, the counts that [save]
    reports add up to the length of the batch, and [save] raises only if
    [commit] does. *)
Theorem counts_add_up (E : env) (db : database)
    (data : list (gmap string (option string))) :
  (∀ i db item c,
     (save_item E i db item c).2 = add_inserted 1 c
     ∨ (save_item E i db item c).2 = add_duplicates 1 c
     ∨ (save_item E i db item c).2 = add_errors 1 c)
  ∧ match save E db data with
    | Ok (_, Some c) =>
        inserted c + duplicates c + errors c = length data
    | Ok (_, None) => data = []
    | Raise e => commit_fault E = Some e
    end.
Proof.
  split; [apply save_item_one_counter|].
  unfold save. destruct data as [|item rest] eqn:Hdata; [done|].
  rewrite <- Hdata.
  pose proof (save_loop_total E 0 db data
                {| inserted := 0; duplicates := 0; errors := 0 |}) as Htotal.
  destruct (save_loop E 0 db data _) as [db' c].
  destruct (commit_fault E); [done|]. exact Htotal.
Qed.

(** One record inserted, one whose [execute] fails, one duplicate. *)
Example counts_with_a_fault :
  save (Inputs.second_execute_fails 10) Inputs.small_table
    [Inputs.linked_record "n" "https://example.com/9";
     Inputs.linked_record "m" "https://example.com/8";
     Inputs.linked_record "a" "https://example.com/1"]
  = Ok ({| rows := rows Inputs.small_table
                   ++ [row_of 10 3 (Inputs.linked_record "n" "https://example.com/9")];
           last_id := 3 |},
        Some {| inserted := 1; duplicates := 1; errors := 1 |}).
Proof. vm_compute. reflexivity. Qed.

Example commit_failure_raises :
  save (Inputs.commit_fails 10) empty_database Inputs.three_links
  = Raise DatabaseError.
Proof. vm_compute. reflexivity. Qed.


End StorageFacts.

(** * Further properties of the detector *)

Module AutoDetectMore.

Import AutoDetect AutoDetectFacts.

Lemma positive_spec n : positive n = true ↔ 0 < n.
Proof. unfold positive. apply Nat.ltb_lt. Qed.

(** A guarded loop, with probes that raise among those it passes over. *)
Lemma guarded_probe_loop_first_skipping accept self before c after :
  (∀ x, x ∈ before → skipped accept self x) →
  accepted accept self c →
  guarded_probe_loop accept self (before ++ c :: after) = Some c.
Proof.
  intros Hbefore (n & Hn & Hacc).
  induction before as [|b before IH]; simpl.
  - by rewrite Hn, Hacc.
  - assert (skipped accept self b) as Hb by (apply Hbefore; left).
    assert (guarded_probe_loop accept self (before ++ c :: after) = Some c)
      as Hrest by (apply IH; intros x Hx; apply Hbefore; by right).
    unfold skipped in Hb. destruct (count self b) as [m|e]; [by rewrite Hb|done].
Qed.

Lemma guarded_probe_loop_none accept self candidates :
  (∀ x, x ∈ candidates → skipped accept self x) →
  guarded_probe_loop accept self candidates = None.
Proof.
  induction candidates as [|b cs IH]; intros Hall; simpl; [done|].
  assert (skipped accept self b) as Hb by (apply Hall; left).
  assert (guarded_probe_loop accept self cs = None) as Hrest
    by (apply IH; intros x Hx; apply Hall; by right).
  unfold skipped in Hb. destruct (count self b) as [m|e]; [by rewrite Hb|done].
Qed.

Lemma guarded_detectors_unfold cands fb det self :
  (cands, fb, det) ∈ guarded_detectors →
  det self = default fb (guarded_probe_loop positive self cands).
Proof.
  unfold guarded_detectors. rewrite !elem_of_cons, elem_of_nil.
  intros [[= -> -> ->] | [[= -> -> ->] | [[= -> -> ->] | []]]].
  - unfold _detect_author. by destruct (guarded_probe_loop _ _ _).
  - unfold _detect_date. by destruct (guarded_probe_loop _ _ _).
  - unfold _detect_content. by destruct (guarded_probe_loop _ _ _).
Qed.

(** X1. Whatever the domain and the page, a dictionary that [detect]
    returns, from the registry or from the heuristics, has a non-empty
    selector under [container] and under [link]. *)
Theorem detect_container_link_nonempty (self : AutoDetector)
    (s : gmap string string) :
  detect self = Ok s →
  (∃ c, s !! "container" = Some c ∧ c ≠ "")
  ∧ (∃ l, s !! "link" = Some l ∧ l ≠ "").
Proof.
  intros Hs. rewrite <- !truthy_Some.
  destruct (_try_template self) as [t|] eqn:Ht.
  - rewrite (detect_template self t Ht) in Hs. injection Hs as <-.
    destruct (try_template_in_elem _ _ _ Ht) as (k & Hin).
    assert (Forall (λ kt : string * gmap string string,
              truthy (kt.2 !! "container") = true
              ∧ truthy (kt.2 !! "link") = true) SITE_TEMPLATES) as Hall.
    { unfold SITE_TEMPLATES. repeat constructor; vm_compute; reflexivity. }
    rewrite Forall_forall in Hall. apply (Hall _ Hin).
  - rewrite (detect_heuristic self Ht) in Hs.
    destruct (heuristic_detection_fields _ _ Hs)
      as (c & t & Hc & _ & -> & _ & _ & _ & _ & ->).
    split; [|done]. apply truthy_Some. exists c. split; [done|].
    apply container_candidates_nonempty.
    by apply (detect_container_candidates self).
Qed.

Lemma detect_container_link_nonempty_witness :
  (∃ c, default ∅ (dict_get SITE_TEMPLATES "medium.com") !! "container" = Some c
        ∧ c ≠ "")
  ∧ (∃ l, default ∅ (dict_get SITE_TEMPLATES "medium.com") !! "link" = Some l
          ∧ l ≠ "").
Proof.
  apply (detect_container_link_nonempty Inputs.medium_broken_page).
  vm_compute. reflexivity.
Defined.

Lemma skipped_of_raise_or_zero self x :
  raises (count self x) ∨ count self x = Ok 0 → skipped positive self x.
Proof.
  unfold skipped. intros [Hr | ->]; [|done]. by destruct (count self x).
Qed.

(** X3. [_detect_author], [_detect_date] and [_detect_content] return the
    first candidate of their list whose probe answers a positive count;
    candidates before it whose probe raises or answers zero are passed
    over. *)
Theorem guarded_detector_first_positive (self : AutoDetector)
    (cands : list string) (fb : string) (det : AutoDetector → string)
    (before after : list string) (c : string) :
  (cands, fb, det) ∈ guarded_detectors →
  cands = before ++ c :: after →
  (∀ x, x ∈ before → raises (count self x) ∨ count self x = Ok 0) →
  (∃ n, count self c = Ok n ∧ 0 < n) →
  det self = c.
Proof.
  intros Hdet -> Hbefore (n & Hn & Hpos).
  rewrite (guarded_detectors_unfold _ _ _ self Hdet).
  rewrite guarded_probe_loop_first_skipping; [done| |].
  - intros x Hx. by apply skipped_of_raise_or_zero, Hbefore.
  - exists n. split; [done|]. by apply positive_spec.
Qed.

Lemma guarded_detector_first_positive_witness :
  _detect_date Inputs.dated_page = ".date".
Proof.
  apply (guarded_detector_first_positive Inputs.dated_page date_selectors
           "time, .date, .published" _detect_date
           ["time"; "[datetime]"] (drop 3 date_selectors) ".date").
  - unfold guarded_detectors. right. left.
  - reflexivity.
  - intros x Hx.
    repeat (apply elem_of_cons in Hx as [->|Hx]);
      [left; vm_compute; exact I | right; reflexivity
      |by apply elem_of_nil in Hx].
  - exists 2. split; [reflexivity | lia].
Defined.

(** X4. When every candidate of such a detector raises or matches
    nothing, the detector returns its fallback alternation; it never
    raises. *)
Theorem guarded_detector_fallback (self : AutoDetector)
    (cands : list string) (fb : string) (det : AutoDetector → string) :
  (cands, fb, det) ∈ guarded_detectors →
  (∀ x, x ∈ cands → raises (count self x) ∨ count self x = Ok 0) →
  det self = fb.
Proof.
  intros Hdet Hall.
  rewrite (guarded_detectors_unfold _ _ _ self Hdet).
  rewrite guarded_probe_loop_none; [done|].
  intros x Hx. by apply skipped_of_raise_or_zero, Hall.
Qed.

Lemma guarded_detector_fallback_witness :
  _detect_content Inputs.medium_broken_page
  = ".content, .description, .summary, p".
Proof.
  apply (guarded_detector_fallback Inputs.medium_broken_page
           content_selectors ".content, .description, .summary, p"
           _detect_content).
  - unfold guarded_detectors. right. right. left.
  - intros x _. left. vm_compute. exact I.
Defined.

(** X5. [_detect_title] returns the first of [h1], [h2], [h3], then of
    the class patterns, whose count is positive, when the candidates
    before it match nothing: a heading that is present wins over every
    class pattern. *)
Theorem detect_title_first_positive (self : AutoDetector)
    (before after : list string) (c : string) :
  headings ++ title_classes = before ++ c :: after →
  (∀ x, x ∈ before → count self x = Ok 0) →
  (∃ n, count self c = Ok n ∧ 0 < n) →
  _detect_title self = Ok c.
Proof.
  intros Hsplit Hbefore (n & Hn & Hpos).
  assert (accepted positive self c) as Hc.
  { exists n. split; [done|]. by apply positive_spec. }
  assert (∀ x, x ∈ before → refused positive self x) as Hrefused.
  { intros x Hx. exists 0. split; [by apply Hbefore | done]. }
  unfold _detect_title.
  destruct (two_loops_first _ _ _ _ _ _ _ Hsplit Hrefused Hc)
    as [-> | [-> ->]]; done.
Qed.

Lemma detect_title_first_positive_witness :
  _detect_title Inputs.dated_page = Ok "h2".
Proof.
  apply (detect_title_first_positive Inputs.dated_page ["h1"]
           (drop 2 (headings ++ title_classes)) "h2").
  - reflexivity.
  - intros x ->%list_elem_of_singleton. reflexivity.
  - exists 3. split; [reflexivity | lia].
Defined.

(** *** Every field of the heuristic dictionary *)

Lemma guarded_default_elem accept self cands fb :
  default fb (guarded_probe_loop accept self cands) ∈ cands ++ [fb].
Proof.
  apply elem_of_app.
  destruct (guarded_probe_loop accept self cands) as [x|] eqn:Hx; simpl.
  - left. by eapply guarded_probe_loop_elem.
  - right. left.
Qed.

Lemma guarded_detector_nonempty cands fb det self :
  (cands, fb, det) ∈ guarded_detectors → det self ≠ "".
Proof.
  intros Hdet. rewrite (guarded_detectors_unfold _ _ _ self Hdet).
  pose proof (guarded_default_elem positive self cands fb) as Hin.
  assert (Forall (λ d : list string * string * (AutoDetector → string),
            Forall (λ x, x ≠ "") (d.1.1 ++ [d.1.2])) guarded_detectors)
    as Hall.
  { unfold guarded_detectors. repeat constructor; discriminate. }
  rewrite Forall_forall in Hall. specialize (Hall _ Hdet). simpl in Hall.
  rewrite Forall_forall in Hall. auto.
Qed.

Lemma detect_title_nonempty self t : _detect_title self = Ok t → t ≠ "".
Proof.
  unfold _detect_title.
  destruct (probe_loop positive self headings) as [[tag|]|e] eqn:Hp;
    step_bind; [| |done].
  - intros [= <-]. apply probe_loop_elem in Hp.
    unfold headings in Hp.
    repeat (apply elem_of_cons in Hp as [->|Hp]); try done.
    by apply elem_of_nil in Hp.
  - pose proof (guarded_default_elem positive self title_classes
                  "h1, h2, h3, .title, .headline") as Hin.
    destruct (guarded_probe_loop positive self title_classes) as [x|];
      intros [= <-]; simpl in Hin.
    + assert (Forall (λ x, x ≠ "")
                (title_classes ++ ["h1, h2, h3, .title, .headline"])) as Hall
        by (repeat constructor; discriminate).
      rewrite Forall_forall in Hall. auto.
    + done.
Qed.

(** X2. The dictionary that heuristic detection returns has exactly the
    six keys [container], [title], [author], [date], [content], [link],
    and no empty selector under any of them. *)
Theorem heuristic_detection_complete (self : AutoDetector)
    (s : gmap string string) :
  _heuristic_detection self = Ok s →
  dom s = list_to_set selector_keys
  ∧ ∀ k v, s !! k = Some v → v ≠ "".
Proof.
  intros Hs.
  destruct (heuristic_detection_fields _ _ Hs)
    as (c & t & Hc & Ht & Hkc & Hkt & Hka & Hkd & Hkn & Hkl).
  assert (dom s = list_to_set selector_keys) as Hdom.
  { revert Hs. unfold _heuristic_detection. rewrite Hc, Ht. step_bind.
    intros [= <-]. rewrite !dom_insert_L, ?dom_empty_L.
    unfold selector_keys. simpl. set_solver. }
  split; [done|]. intros k v Hk.
  assert (k ∈ dom s) as Hin by (apply elem_of_dom; eauto).
  rewrite Hdom in Hin. unfold selector_keys in Hin.
  apply elem_of_list_to_set in Hin.
  repeat (apply elem_of_cons in Hin as [->|Hin]);
    [..|by apply elem_of_nil in Hin];
    match goal with H : s !! ?key = Some _ |- _ =>
      rewrite H in Hk; injection Hk as <- end.
  - apply container_candidates_nonempty.
    by apply (detect_container_candidates self).
  - by apply (detect_title_nonempty self).
  - apply (guarded_detector_nonempty author_selectors
             (".author, .byline, " +:+ attr "rel" "=" "author")).
    unfold guarded_detectors. left.
  - apply (guarded_detector_nonempty date_selectors "time, .date, .published").
    unfold guarded_detectors. right. left.
  - apply (guarded_detector_nonempty content_selectors
             ".content, .description, .summary, p").
    unfold guarded_detectors. right. right. left.
  - done.
Qed.

Lemma heuristic_detection_complete_witness :
  ∃ s, _heuristic_detection Inputs.dated_page = Ok s
    ∧ dom s = list_to_set selector_keys
    ∧ ∀ k v, s !! k = Some v → v ≠ "".
Proof.
  exists (default ∅ (match _heuristic_detection Inputs.dated_page with
                     | Ok s => Some s | Raise _ => None end)).
  split; [vm_compute; reflexivity|].
  apply (heuristic_detection_complete Inputs.dated_page).
  vm_compute. reflexivity.
Defined.


(** *** The [www.] prefix *)

Lemma substring_all (s : string) : String.substring 0 (String.length s) s = s.
Proof. induction s as [|a s IH]; simpl; [done | by rewrite IH]. Qed.

Lemma extract_domain_www (d : string) : _extract_domain ("www." +:+ d) = d.
Proof.
  unfold _extract_domain.
  replace (String.prefix "www." ("www." +:+ d)) with true
    by (symmetry; apply prefix_append; by exists d).
  rewrite !append_String, append_empty.
  cbn [String.length String.substring Nat.sub]. rewrite Nat.sub_0_r.
  apply substring_all.
Qed.

(** X7. A host name made of [www.] and a registered domain is looked up
    under the registered domain: the detector gets that domain's template,
    by exact match. *)
Theorem www_prefix_gets_template (p : Page) (k : string)
    (t : gmap string string) :
  dict_get SITE_TEMPLATES k = Some t →
  detect (mkAutoDetector p (_extract_domain ("www." +:+ k))) = Ok t.
Proof.
  intros Hk. rewrite extract_domain_www. apply detect_template.
  unfold _try_template, try_template_in. cbn [domain]. by rewrite Hk.
Qed.

Lemma www_prefix_gets_template_witness :
  detect (mkAutoDetector (page Inputs.medium_broken_page)
            (_extract_domain "www.github.com"))
  = Ok (default ∅ (dict_get SITE_TEMPLATES "github.com")).
Proof.
  apply (www_prefix_gets_template (page Inputs.medium_broken_page)
           "github.com").
  vm_compute. reflexivity.
Defined.

(** *** Keys that occur in other keys *)

Lemma append_assoc (a b c : string) : (a +:+ b) +:+ c = a +:+ (b +:+ c).
Proof.
  induction a as [|x a IH]; [done|]. by rewrite !append_String, IH.
Qed.

Lemma contains_trans (a b c : string) :
  contains a b = true → contains b c = true → contains a c = true.
Proof.
  rewrite !contains_occurs.
  intros (p1 & q1 & ->) (p2 & q2 & ->).
  exists (p2 +:+ p1), (q1 +:+ q2). by rewrite !append_assoc.
Qed.

(** X6. The key [uol.com.br] stands before [folha.uol.com.br] in the
    registry and occurs in it, so the partial search never reaches the
    second: a domain gets the template of [folha.uol.com.br] only when it
    is that key itself. *)
Theorem folha_template_only_by_exact_match (self : AutoDetector) :
  _try_template self = dict_get SITE_TEMPLATES "folha.uol.com.br" →
  domain self = "folha.uol.com.br".
Proof.
  assert (∀ t : gmap string string,
            t !! "container" ≠ Some ".c-headline, article" →
            Some t ≠ dict_get SITE_TEMPLATES "folha.uol.com.br") as Hother.
  { intros t Hc Ht. apply Hc. apply (f_equal (λ o, o ≫= (.!! "container"))) in Ht.
    simpl in Ht. rewrite Ht. vm_compute. reflexivity. }
  unfold _try_template, try_template_in.
  destruct (dict_get SITE_TEMPLATES (domain self)) as [t|] eqn:Hget.
  - revert Hget. unfold SITE_TEMPLATES. cbn [dict_get].
    repeat
      match goal with
      | |- context [String.eqb ?k (domain self)] =>
          destruct (String.eqb_spec k (domain self)) as [Heq|_];
          [ intros [= <-] Ht; first
              [ by symmetry
              | exfalso; revert Ht; apply Hother; vm_compute; discriminate ]
          |]
      end.
    done.
  - clear Hget. unfold SITE_TEMPLATES. cbn [partial_match].
    repeat
      match goal with
      | |- context [contains ?k (domain self)] =>
          let Hk := fresh "Hk" in
          destruct (contains k (domain self)) eqn:Hk;
          [ intros Ht; exfalso; first
              [ revert Ht; apply Hother; vm_compute; discriminate
              | match goal with
                | Huol : contains "uol.com.br" (domain self) = false |- _ =>
                    rewrite (contains_trans "uol.com.br" "folha.uol.com.br"
                               (domain self)) in Huol; [discriminate| |assumption];
                    vm_compute; reflexivity
                end ]
          |]
      end.
    intros Ht. exfalso. revert Ht. vm_compute. discriminate.
Qed.

Lemma folha_template_only_by_exact_match_witness :
  domain (mkAutoDetector (page Inputs.empty_page) "folha.uol.com.br")
  = "folha.uol.com.br".
Proof.
  apply (folha_template_only_by_exact_match
           (mkAutoDetector (page Inputs.empty_page) "folha.uol.com.br")).
  vm_compute. reflexivity.
Defined.

Example folha_subdomain_gets_uol :
  _try_template (mkAutoDetector (page Inputs.empty_page) "www1.folha.uol.com.br")
  = dict_get SITE_TEMPLATES "uol.com.br".
Proof. vm_compute. reflexivity. Qed.


End AutoDetectMore.

(** * Further properties of the scraper *)

Module ScraperMore.

Import Scraper ScraperFacts.

Section WithStrip.

Context (strip : string → string).

Lemma record_of_length self c : length (record_of strip self c) ≤ 1.
Proof.
  unfold record_of. destruct (_extract_item_data strip self c); [|simpl; lia].
  destruct (has_title_or_link _); simpl; lia.
Qed.

Lemma flat_map_record_of_length self cs :
  length (flat_map (record_of strip self) cs) ≤ length cs.
Proof.
  induction cs as [|c cs IH]; simpl; [lia|].
  rewrite length_app. pose proof (record_of_length self c). lia.
Qed.

(** X8. With a positive limit the output holds at most [max_items]
    records. *)
Theorem extract_data_at_most_max_items (self : WebScraper) (n : Z) :
  (0 < n)%Z →
  length (extract_data strip self (Some n)) ≤ Z.to_nat n.
Proof.
  intros Hn. rewrite extract_data_flat_map.
  destruct (query_selector_all _ _) as [cs|e]; [|simpl; lia].
  simpl. destruct (Z.eqb_spec n 0) as [->|_]; [lia|]. simpl.
  unfold slice_to. destruct (Z.leb_spec 0 n); [|lia].
  etrans; [apply flat_map_record_of_length|].
  rewrite length_take. lia.
Qed.

(** X9. Whatever the limit (positive, zero, negative or none), the
    output is a prefix of the output without limit: the limit drops
    records at the end and changes neither the others nor their order. *)
Theorem extract_data_limit_prefix (self : WebScraper) (max_items : option Z) :
  extract_data strip self max_items `prefix_of` extract_data strip self None.
Proof.
  rewrite !extract_data_flat_map.
  destruct (query_selector_all _ _) as [cs|e]; [|done].
  cbn [is_set]. destruct (is_set max_items); [|done].
  unfold slice_to.
  destruct (0 <=? default 0 max_items)%Z;
    match goal with |- context [take ?k cs] =>
      exists (flat_map (record_of strip self) (drop k cs));
      by rewrite <- flat_map_app, take_drop
    end.
Qed.

(** Opens [_extract_item_data] into its cases, one per outcome of each
    query, text and attribute. *)
Ltac open_item c :=
  repeat match goal with
    | |- Raise _ = Ok _ → _ => discriminate
    | |- context [query_selector c ?s] =>
        destruct (query_selector c s) as [[?|]|] eqn:?; step_bind
    | |- context [match inner_text ?el with _ => _ end] =>
        destruct (inner_text el) eqn:?; step_bind
    | |- context [match get_attribute ?el ?a with _ => _ end] =>
        destruct (get_attribute el a) as [[?|]|] eqn:?; step_bind
    | |- context [if truthy ?v then _ else _] =>
        destruct (truthy v) eqn:?; step_bind
    | |- context [match evaluate ?p ?a with _ => _ end] =>
        destruct (evaluate p a) eqn:?; step_bind
    end.

(** X11. A record has no key besides [title], [author], [date],
    [content] and [link]. *)
Theorem item_keys (self : WebScraper) (c : ElementHandle)
    (item : gmap string string) (k v : string) :
  _extract_item_data strip self c = Ok item →
  item !! k = Some v →
  k ∈ ["title"; "author"; "date"; "content"; "link"].
Proof.
  unfold _extract_item_data. step_bind. open_item c;
    intros [= Hitem] Hk; subst item;
    repeat (rewrite lookup_insert in Hk;
            destruct (decide (_ = k)) as [<-|_];
            [rewrite !elem_of_cons; tauto|]);
    by rewrite lookup_empty in Hk.
Qed.

(** X10. The date of a record is the [datetime] attribute of the date
    element, as it is written, when the attribute is there and not empty;
    otherwise it is the stripped text of the element. *)
Theorem date_prefers_datetime (self : WebScraper) (c el : ElementHandle)
    (a : option string) (item : gmap string string) :
  _extract_item_data strip self c = Ok item →
  query_selector c (sel_date (SELECTORS self)) = Ok (Some el) →
  get_attribute el "datetime" = Ok a →
  (truthy a = true ∧ item !! "date" = a)
  ∨ (truthy a = false
     ∧ ∃ text, inner_text el = Ok text ∧ item !! "date" = Some (strip text)).
Proof.
  intros Hextract Hq Ha. revert Hextract.
  unfold _extract_item_data. step_bind. rewrite Hq. step_bind.
  rewrite Ha. step_bind.
  destruct (truthy a) eqn:Hta.
  - apply truthy_Some in Hta as (v & -> & Hv). step_bind.
    open_item c; intros [= Hitem]; subst item; left; (split; [done|]); by simplify_map_eq.
  - destruct (inner_text el) as [text|e] eqn:Htext; step_bind;
      open_item c; try discriminate;
      intros [= Hitem]; subst item; right; (split; [done|]); exists text;
      (split; [congruence|]); by simplify_map_eq.
Qed.

End WithStrip.


(** *** Scrolling *)

Lemma scroll_loop_spec E remaining scrolls last n :
  scroll_loop E remaining scrolls last = Ok n →
  heights E scrolls = Ok last →
  scrolls ≤ n ≤ scrolls + remaining
  ∧ (∀ k, scrolls ≤ k < n →
       ∃ a b, heights E k = Ok a ∧ heights E (S k) = Ok b ∧ a ≠ b)
  ∧ (n < scrolls + remaining →
       ∃ a, heights E n = Ok a ∧ heights E (S n) = Ok a).
Proof.
  revert scrolls last.
  induction remaining as [|r IH]; intros scrolls last; simpl.
  - intros [= <-] _. split_and!; [lia..|lia].
  - destruct (scroll_to E scrolls) as [[]|e]; step_bind; [|done].
    destruct (heights E (S scrolls)) as [new|e] eqn:Hnew; step_bind; [|done].
    destruct (Z.eqb_spec new last) as [->|Hne].
    + intros [= <-] Hlast. split_and!; [lia..| |].
      * intros k ?. lia.
      * intros _. by exists last.
    + intros Hloop Hlast.
      destruct (IH _ _ Hloop Hnew) as (Hbound & Hchanged & Hstable).
      split_and!; [lia..| |].
      * intros k Hk. destruct (decide (k = scrolls)) as [->|].
        -- exists last, new. split_and!; [done..|congruence].
        -- apply Hchanged. lia.
      * intros Hlt. apply Hstable. lia.
Qed.

(** X12. When [scroll_to_bottom] returns, it has completed no more than
    [max_scrolls] scrolls (none for a limit of zero or less), each of them
    changed the height of the page, and unless the limit warning is
    logged the scroll after them left the height as it was. *)
Theorem scroll_to_bottom_stops (E : scroll_env) (max_scrolls : Z)
    (n : nat) (limit : bool) :
  scroll_to_bottom E max_scrolls = Ok (n, limit) →
  (Z.of_nat n ≤ Z.max 0 max_scrolls)%Z
  ∧ (∀ k, k < n →
       ∃ a b, heights E k = Ok a ∧ heights E (S k) = Ok b ∧ a ≠ b)
  ∧ (limit = false → ∃ a, heights E n = Ok a ∧ heights E (S n) = Ok a).
Proof.
  unfold scroll_to_bottom.
  destruct (heights E 0) as [h|e] eqn:Hh; step_bind; [|done].
  destruct (scroll_loop E (Z.to_nat max_scrolls) 0 h) as [m|e] eqn:Hloop;
    step_bind; [|done].
  intros [= -> <-].
  destruct (scroll_loop_spec _ _ _ _ _ Hloop Hh) as (Hbound & Hchanged & Hstable).
  split_and!.
  - lia.
  - intros k Hk. apply Hchanged. lia.
  - intros Hlimit. apply Z.leb_gt in Hlimit. apply Hstable. lia.
Qed.

Lemma scroll_to_bottom_stops_witness :
  scroll_to_bottom Inputs.grows_twice 50 = Ok (2, false)
  ∧ (Z.of_nat 2 ≤ Z.max 0 50)%Z
  ∧ (∀ k, k < 2 →
       ∃ a b, heights Inputs.grows_twice k = Ok a
              ∧ heights Inputs.grows_twice (S k) = Ok b ∧ a ≠ b)
  ∧ (false = false →
       ∃ a, heights Inputs.grows_twice 2 = Ok a
            ∧ heights Inputs.grows_twice 3 = Ok a).
Proof.
  split; [vm_compute; reflexivity|].
  apply (scroll_to_bottom_stops Inputs.grows_twice 50 2 false).
  vm_compute. reflexivity.
Defined.

Example scroll_limit_zero (E : scroll_env) (h : Z) :
  heights E 0 = Ok h → scroll_to_bottom E 0 = Ok (0, true).
Proof. intros Hh. unfold scroll_to_bottom. by rewrite Hh. Qed.

(** *** Concrete pages *)

Lemma extract_data_at_most_max_items_witness :
  length (extract_data Inputs.ascii_strip
            (Inputs.scraper_on Inputs.ten_containers) (Some 2%Z))
  ≤ Z.to_nat 2.
Proof.
  apply (extract_data_at_most_max_items Inputs.ascii_strip
           (Inputs.scraper_on Inputs.ten_containers) 2%Z).
  lia.
Defined.

Lemma item_keys_witness :
  "date" ∈ ["title"; "author"; "date"; "content"; "link"].
Proof.
  apply (item_keys Inputs.ascii_strip (Inputs.scraper_on [])
           (Inputs.dated "2024-05-01T10:00" " 1 May ")
           (list_to_map [("title", "News"); ("date", "2024-05-01T10:00")])
           "date" "2024-05-01T10:00").
  - vm_compute. reflexivity.
  - vm_compute. reflexivity.
Defined.

(** A date element with an attribute, and one whose attribute is empty. *)
Lemma date_prefers_datetime_witness :
  (truthy (Some "2024-05-01T10:00") = true
   ∧ (list_to_map [("title", "News"); ("date", "2024-05-01T10:00")]
        : gmap string string) !! "date" = Some "2024-05-01T10:00")
  ∨ (truthy (Some "2024-05-01T10:00") = false
     ∧ ∃ text,
         inner_text (Inputs.time_element "2024-05-01T10:00" " 1 May ") = Ok text
         ∧ (list_to_map [("title", "News"); ("date", "2024-05-01T10:00")]
              : gmap string string) !! "date"
           = Some (Inputs.ascii_strip text)).
Proof.
  apply (date_prefers_datetime Inputs.ascii_strip (Inputs.scraper_on [])
           (Inputs.dated "2024-05-01T10:00" " 1 May ")
           (Inputs.time_element "2024-05-01T10:00" " 1 May ")).
  - vm_compute. reflexivity.
  - vm_compute. reflexivity.
  - reflexivity.
Defined.

Example date_falls_back_to_text :
  _extract_item_data Inputs.ascii_strip (Inputs.scraper_on [])
    (Inputs.dated "" " 1 May ")
  = Ok (list_to_map [("title", "News"); ("date", "1 May")]).
Proof. vm_compute. reflexivity. Qed.


End ScraperMore.

(** * Further properties of the store *)

Module StorageMore.

Import Storage StorageFacts.

(** What one record does to the table, whatever the engine does. *)
Lemma save_item_cases E i db item c :
  save_item E i db item c = (db, add_duplicates 1 c)
  ∨ save_item E i db item c = (db, add_errors 1 c)
  ∨ (save_item E i db item c
     = ({| rows := rows db ++ [row_of (now E) (last_id db + 1) item];
           last_id := last_id db + 1 |}, add_inserted 1 c)
     ∧ ∀ l, get item "link" = Some l → link_exists db l = false).
Proof.
  unfold save_item, execute.
  destruct (execute_fault E i) as [[]|]; auto.
  unfold insert_or_ignore.
  destruct (get item "link") as [l|] eqn:Hl.
  - destruct (link_exists db l) eqn:Hex; simpl; auto.
    right; right. split; [done|]. by intros l' [= <-].
  - simpl. right; right. split; [done|]. by intros l' [=].
Qed.

Lemma link_exists_notin db l :
  link_exists db l = false → l ∉ omap link (rows db).
Proof.
  unfold link_exists. intros Hex Hin.
  apply list_elem_of_omap in Hin as (r & Hr & Hl).
  assert (existsb (λ r, bool_decide (link r = Some l)) (rows db) = true)
    as Htrue; [|congruence].
  apply existsb_exists. exists r. split; [by apply list_elem_of_In|].
  by apply bool_decide_eq_true.
Qed.

Lemma link_exists_elem db l :
  link_exists db l = true ↔ ∃ r, r ∈ rows db ∧ link r = Some l.
Proof.
  unfold link_exists. rewrite existsb_exists. split.
  - intros (r & Hr & Hl). exists r. split; [by apply list_elem_of_In|].
    by apply bool_decide_eq_true in Hl.
  - intros (r & Hr & Hl). exists r. split; [by apply list_elem_of_In|].
    by apply bool_decide_eq_true.
Qed.

(** The loop only appends rows, one per inserted record, and keeps the
    links of the table distinct. *)
Lemma save_loop_grows E i db data c :
  ∃ new,
    rows (save_loop E i db data c).1 = rows db ++ new
    ∧ inserted (save_loop E i db data c).2 = inserted c + length new
    ∧ (unique_links db → unique_links (save_loop E i db data c).1).
Proof.
  revert i db c. induction data as [|item rest IH]; intros i db c.
  - exists []. simpl. rewrite app_nil_r. split_and!; [done|lia|done].
  - cbn [save_loop].
    destruct (save_item_cases E i db item c) as [-> | [-> | [-> Hfresh]]].
    + destruct (IH (S i) db (add_duplicates 1 c)) as (new & ? & ? & ?).
      exists new. split_and!; [done|simpl in *; lia|done].
    + destruct (IH (S i) db (add_errors 1 c)) as (new & ? & ? & ?).
      exists new. split_and!; [done|simpl in *; lia|done].
    + match goal with |- context [save_loop E (S i) ?d rest ?k] =>
        destruct (IH (S i) d k) as (new & Hrows & Hins & Huniq) end.
      exists (row_of (now E) (last_id db + 1) item :: new).
      split_and!.
      * rewrite Hrows. cbn [rows]. by rewrite <- app_assoc.
      * rewrite Hins. simpl. lia.
      * intros Hdb. apply Huniq. unfold unique_links in *. cbn [rows].
        rewrite omap_app. cbn [omap list_omap row_of link].
        destruct (get item "link") as [l|] eqn:Hl; simpl.
        -- apply NoDup_app. split_and!; [done| |apply NoDup_singleton].
           intros x Hx ->%list_elem_of_singleton.
           by apply (link_exists_notin db l); [apply Hfresh|].
        -- by rewrite app_nil_r.
Qed.

(** X13. [save] never changes or removes a row that is in the table:
    the rows it finds are a prefix of the rows it leaves, whatever the
    batch and whatever fails. *)
Theorem save_keeps_rows (E : env) (db db' : database)
    (data : list (gmap string (option string))) (r : option counts) :
  save E db data = Ok (db', r) →
  rows db `prefix_of` rows db'.
Proof.
  unfold save. destruct data as [|item rest] eqn:Hdata.
  - intros [= <- <-]. exists []. by rewrite app_nil_r.
  - rewrite <- Hdata.
    destruct (save_loop_grows E 0 db data
                {| inserted := 0; duplicates := 0; errors := 0 |})
      as (new & Hrows & _).
    destruct (save_loop E 0 db data _) as [db1 c1].
    destruct (commit_fault E); [done|]. intros [= <- <-]. by exists new.
Qed.


(** X15. A table in which no two rows share a link is still such a table
    after [save], also for a batch that repeats a link and whatever
    fails. *)
Theorem save_keeps_links_unique (E : env) (db db' : database)
    (data : list (gmap string (option string))) (r : option counts) :
  unique_links db →
  save E db data = Ok (db', r) →
  unique_links db'.
Proof.
  intros Hdb. unfold save. destruct data as [|item rest] eqn:Hdata.
  - by intros [= <- <-].
  - rewrite <- Hdata.
    destruct (save_loop_grows E 0 db data
                {| inserted := 0; duplicates := 0; errors := 0 |})
      as (new & _ & _ & Huniq).
    destruct (save_loop E 0 db data _) as [db1 c1].
    destruct (commit_fault E); [done|]. intros [= <- <-]. by apply Huniq.
Qed.

Lemma save_keeps_rows_witness :
  rows Inputs.small_table `prefix_of` rows Inputs.after_mixed_batch.
Proof.
  apply (save_keeps_rows (Inputs.second_execute_fails 10) Inputs.small_table
           Inputs.after_mixed_batch Inputs.mixed_batch
           (Some {| inserted := 1; duplicates := 1; errors := 1 |})).
  vm_compute. reflexivity.
Defined.


Lemma save_keeps_links_unique_witness :
  unique_links Inputs.after_mixed_batch.
Proof.
  apply (save_keeps_links_unique (Inputs.second_execute_fails 10)
           Inputs.small_table Inputs.after_mixed_batch Inputs.mixed_batch
           (Some {| inserted := 1; duplicates := 1; errors := 1 |})).
  - unfold unique_links. vm_compute. apply NoDup_singleton.
  - vm_compute. reflexivity.
Defined.

(** *** Saving a batch again *)

Lemma link_exists_mono db db' l :
  rows db `prefix_of` rows db' →
  link_exists db l = true → link_exists db' l = true.
Proof.
  intros [new Hrows]. unfold link_exists. rewrite Hrows, existsb_app.
  by intros ->.
Qed.

Lemma save_loop_prefix E i db data c :
  rows db `prefix_of` rows (save_loop E i db data c).1.
Proof.
  destruct (save_loop_grows E i db data c) as (new & Hrows & _).
  by exists new.
Qed.

(** With an engine that does not fail, the links of the batch are all in
    the table when the loop ends. *)
Lemma save_loop_links_present E i db data c item l :
  healthy E →
  item ∈ data → get item "link" = Some l →
  link_exists (save_loop E i db data c).1 l = true.
Proof.
  intros HE Hin Hl. revert i db c.
  induction data as [|item' rest IH]; intros i db c;
    [by apply elem_of_nil in Hin|].
  cbn [save_loop].
  destruct (save_item E i db item' c) as [db1 c1] eqn:Hstep.
  apply elem_of_cons in Hin as [<-|Hin]; [|by apply IH].
  apply (link_exists_mono db1); [apply save_loop_prefix|].
  destruct (link_exists db l) eqn:Hex.
  - rewrite (save_item_duplicate _ _ _ _ _ l) in Hstep by done.
    by injection Hstep as <- _.
  - rewrite save_item_fresh in Hstep; [|done|by intros l'; rewrite Hl; intros [= <-]].
    injection Hstep as <- _. rewrite link_exists_app. cbn [row_of link].
    rewrite Hl. apply orb_true_iff. right. by apply bool_decide_eq_true.
Qed.

(** X18. After a [save] by an engine that does not fail, every link of
    the batch is the link of a row of the table. *)
Theorem links_of_batch_stored (E : env) (db db' : database)
    (data : list (gmap string (option string))) (r : option counts)
    (item : gmap string (option string)) (l : string) :
  healthy E →
  save E db data = Ok (db', r) →
  item ∈ data → get item "link" = Some l →
  ∃ row, row ∈ rows db' ∧ link row = Some l.
Proof.
  intros HE Hsave Hin Hl. apply link_exists_elem.
  revert Hsave. unfold save. destruct data as [|item' rest] eqn:Hdata;
    [by apply elem_of_nil in Hin|].
  rewrite <- Hdata in *.
  pose proof (save_loop_links_present E 0 db data
                {| inserted := 0; duplicates := 0; errors := 0 |} item l
                HE Hin Hl) as Hpresent.
  destruct (save_loop E 0 db data _) as [db1 c1].
  destruct (commit_fault E); [done|]. by intros [= <- <-].
Qed.

Lemma links_of_batch_stored_witness :
  ∃ row, row ∈ rows Inputs.after_mixed_batch
    ∧ link row = Some "https://example.com/1".
Proof.
  apply (links_of_batch_stored (Inputs.healthy_env 10) Inputs.small_table
           Inputs.after_mixed_batch
           [Inputs.linked_record "n" "https://example.com/9";
            Inputs.linked_record "a" "https://example.com/1"]
           (Some {| inserted := 1; duplicates := 1; errors := 0 |})
           (Inputs.linked_record "a" "https://example.com/1")).
  - by split.
  - vm_compute. reflexivity.
  - right. left.
  - vm_compute. reflexivity.
Defined.



(** *** Batches without links *)

Lemma save_loop_all_linkless E i db data c :
  healthy E →
  (∀ item, item ∈ data → get item "link" = None) →
  save_loop E i db data c
  = ({| rows := rows db ++ rows_from (now E) (last_id db) data;
        last_id := last_id db + Z.of_nat (length data) |},
     add_inserted (length data) c).
Proof.
  intros HE. revert i db c.
  induction data as [|item rest IH]; intros i db c Hall.
  - simpl. rewrite app_nil_r, Z.add_0_r. destruct db. f_equal.
    apply counts_eq; simpl; lia.
  - cbn [save_loop]. rewrite save_item_fresh; [|done|].
    2:{ intros l Hl. rewrite (Hall item) in Hl; [done|left]. }
    rewrite IH by (intros item' Hin; apply Hall; by right).
    cbn [rows last_id rows_from length]. f_equal.
    + f_equal; [by rewrite <- app_assoc | lia].
    + apply counts_eq; simpl; lia.
Qed.

(** X17. A non-empty batch of records without link is inserted in full
    every time it is saved: saved twice by an engine that does not fail,
    it is counted as inserted twice and leaves two rows per record. *)
Theorem linkless_batch_saved_twice (E1 E2 : env) (db : database)
    (data : list (gmap string (option string))) :
  healthy E1 → healthy E2 →
  data ≠ [] →
  (∀ item, item ∈ data → get item "link" = None) →
  ∃ db1 db2,
    save E1 db data
    = Ok (db1, Some {| inserted := length data; duplicates := 0; errors := 0 |})
    ∧ save E2 db1 data
      = Ok (db2, Some {| inserted := length data; duplicates := 0; errors := 0 |})
    ∧ count db2 = count db + 2 * length data.
Proof.
  intros HE1 HE2 Hne Hall.
  assert (∀ t last, length (rows_from t last data) = length data) as Hlen.
  { intros t last. revert last. clear. induction data as [|item rest IH];
      intros last; simpl; [done|]. by rewrite IH. }
  unfold save. destruct data as [|item rest] eqn:Hdata; [done|].
  rewrite <- Hdata in *.
  rewrite !save_loop_all_linkless by done.
  destruct HE1 as [_ ->]. eexists _, _. split; [reflexivity|].
  rewrite save_loop_all_linkless by done.
  destruct HE2 as [_ ->]. split; [reflexivity|].
  unfold count. cbn [rows]. rewrite !length_app, !Hlen. lia.
Qed.

Lemma linkless_batch_saved_twice_witness :
  ∃ db1 db2,
    save (Inputs.healthy_env 10) Inputs.small_table Inputs.only_linkless
    = Ok (db1, Some {| inserted := 2; duplicates := 0; errors := 0 |})
    ∧ save (Inputs.healthy_env 20) db1 Inputs.only_linkless
      = Ok (db2, Some {| inserted := 2; duplicates := 0; errors := 0 |})
    ∧ count db2 = count Inputs.small_table + 2 * 2.
Proof.
  apply (linkless_batch_saved_twice (Inputs.healthy_env 10)
           (Inputs.healthy_env 20) Inputs.small_table Inputs.only_linkless).
  - by split.
  - by split.
  - discriminate.
  - intros item Hin. vm_compute in Hin.
    repeat (apply elem_of_cons in Hin as [->|Hin]);
      [vm_compute; reflexivity ..|by apply elem_of_nil in Hin].
Defined.


End StorageMore.

(** * Properties of the CSV and JSON writers *)

Module FilesMore.

Import Storage.

#[local] Instance string_le_total : Total CSVStorage.string_le.
Proof. intros a b. apply String.leb_total. Qed.

Lemma foldl_union_elem (data : list (gmap string (option string)))
    (acc : gset string) (k : string) :
  k ∈ foldl (λ (keys : gset string) item, keys ∪ dom item) acc data
  ↔ k ∈ acc ∨ ∃ item, item ∈ data ∧ k ∈ dom item.
Proof.
  revert acc. induction data as [|item rest IH]; intros acc; simpl.
  - split; [by left|]. intros [?|(item & Hin & _)]; [done|].
    by apply elem_of_nil in Hin.
  - rewrite IH, elem_of_union. split.
    + intros [[?|?]|(item' & ? & ?)]; [by left| |].
      * right. exists item. split; [left | done].
      * right. exists item'. split; [by right | done].
    + intros [?|(item' & Hin & ?)]; [|apply elem_of_cons in Hin as [->|?]].
      * by left; left.
      * by left; right.
      * right. by exists item'.
Qed.

Lemma fieldnames_elem data k :
  k ∈ CSVStorage.fieldnames data ↔ ∃ item, item ∈ data ∧ k ∈ dom item.
Proof.
  unfold CSVStorage.fieldnames.
  rewrite (merge_sort_Permutation CSVStorage.string_le).
  rewrite elem_of_elements, foldl_union_elem. split.
  - by intros [?%elem_of_empty|?].
  - by right.
Qed.

(** X19. The header that [CSVStorage.save] computes lists each key of
    the batch exactly once, in increasing order. *)
Theorem fieldnames_sorted_keys (data : list (gmap string (option string))) :
  Sorted CSVStorage.string_le (CSVStorage.fieldnames data)
  ∧ NoDup (CSVStorage.fieldnames data)
  ∧ ∀ k, k ∈ CSVStorage.fieldnames data
         ↔ ∃ item, item ∈ data ∧ is_Some (item !! k).
Proof.
  split_and!.
  - apply (Sorted_merge_sort CSVStorage.string_le).
  - unfold CSVStorage.fieldnames.
    rewrite (merge_sort_Permutation CSVStorage.string_le).
    apply NoDup_elements.
  - intros k. rewrite fieldnames_elem. by setoid_rewrite elem_of_dom.
Qed.

Example fieldnames_example :
  CSVStorage.fieldnames Inputs.two_shapes = ["author"; "link"; "title"].
Proof. vm_compute. reflexivity. Qed.

Lemma dict_to_list_of_batch data item :
  item ∈ data →
  CSVStorage._dict_to_list (CSVStorage.fieldnames data) item
  = Some (CSVStorage.cells data item).
Proof.
  intros Hin. unfold CSVStorage._dict_to_list.
  rewrite decide_True; [done|].
  intros k Hk. apply elem_of_list_to_set, fieldnames_elem. eauto.
Qed.

Lemma mapM_all_Some {A B} (f : A → option B) (g : A → B) (l : list A) :
  (∀ x, x ∈ l → f x = Some (g x)) → mapM f l = Some (g <$> l).
Proof.
  intros Hall. apply mapM_Some.
  induction l as [|x l IH]; simpl; constructor.
  - apply Hall. left.
  - apply IH. intros y Hy. apply Hall. by right.
Qed.

(** The file that [save] leaves, in either mode. *)
Lemma csv_save_file files data path append :
  data ≠ [] →
  CSVStorage.save files data path append
  = Some (<[path :=
             (if append then default [] (files !! path) else [])
             ++ (if append then [] else [CSVStorage.fieldnames data])
             ++ (CSVStorage.cells data <$> data)]> files).
Proof.
  intros Hne. unfold CSVStorage.save.
  destruct data as [|item rest] eqn:Hdata; [done|]. rewrite <- Hdata.
  rewrite (mapM_all_Some _ (CSVStorage.cells data)); [done|].
  intros x Hx. by apply dict_to_list_of_batch.
Qed.

(** X20. Writing a non-empty batch never raises on a record's keys, and
    the file is the header followed by one row per record, each as wide
    as the header. *)
Theorem csv_write_rectangular (files : gmap string (list (list string)))
    (data : list (gmap string (option string))) (path : string) :
  data ≠ [] →
  ∃ rows,
    CSVStorage.save files data path false
    = Some (<[path := CSVStorage.fieldnames data :: rows]> files)
    ∧ length rows = length data
    ∧ Forall (λ r, length r = length (CSVStorage.fieldnames data)) rows.
Proof.
  intros Hne. exists (CSVStorage.cells data <$> data). split_and!.
  - by rewrite csv_save_file.
  - by rewrite length_fmap.
  - apply Forall_fmap, Forall_forall. intros item _. unfold CSVStorage.cells. simpl.
    by rewrite length_fmap.
Qed.

Lemma csv_write_rectangular_witness :
  ∃ rows,
    CSVStorage.save ∅ Inputs.two_shapes "out.csv" false
    = Some (<["out.csv" := CSVStorage.fieldnames Inputs.two_shapes :: rows]> ∅)
    ∧ length rows = 2
    ∧ Forall (λ r, length r = length (CSVStorage.fieldnames Inputs.two_shapes))
        rows.
Proof.
  apply (csv_write_rectangular ∅ Inputs.two_shapes "out.csv").
  discriminate.
Defined.

Example csv_write_example :
  CSVStorage.save ∅ Inputs.two_shapes "out.csv" false
  = Some {["out.csv" := [["author"; "link"; "title"];
                         [""; "L1"; "T1"];
                         ["A2"; ""; ""]]]}.
Proof. vm_compute. reflexivity. Qed.

(** X21. In the file written for a batch, the cell of the i-th record
    under the column of a key is the record's value for that key, and the
    empty cell when the record has no such key or holds [None] there. *)
Theorem csv_cell_is_value (files files' : gmap string (list (list string)))
    (data : list (gmap string (option string))) (path : string)
    (i j : nat) (item : gmap string (option string)) (key : string) :
  CSVStorage.save files data path false = Some files' →
  data !! i = Some item →
  CSVStorage.fieldnames data !! j = Some key →
  ∃ file,
    files' !! path = Some file
    ∧ file !! 0 = Some (CSVStorage.fieldnames data)
    ∧ file !! S i ≫= (.!! j) = Some (default "" (get item key)).
Proof.
  intros Hsave Hi Hj.
  assert (data ≠ []) as Hne by (intros ->; done).
  rewrite csv_save_file in Hsave by done. injection Hsave as <-.
  eexists. split; [apply lookup_insert_eq|]. split; [done|].
  simpl. rewrite list_lookup_fmap, Hi. simpl.
  unfold CSVStorage.cells. by rewrite list_lookup_fmap, Hj.
Qed.

Lemma csv_cell_is_value_witness :
  ∃ file,
    (<["out.csv" := [["author"; "link"; "title"];
                     [""; "L1"; "T1"];
                     ["A2"; ""; ""]]]> ∅ : gmap string (list (list string)))
      !! "out.csv" = Some file
    ∧ file !! 0 = Some (CSVStorage.fieldnames Inputs.two_shapes)
    ∧ file !! 2 ≫= (.!! 2)
      = Some (default "" (get (list_to_map [("author", Some "A2"); ("title", None)])
                             "title")).
Proof.
  apply (csv_cell_is_value ∅ _ Inputs.two_shapes "out.csv" 1 2
           (list_to_map [("author", Some "A2"); ("title", None)]) "title").
  - vm_compute. reflexivity.
  - reflexivity.
  - vm_compute. reflexivity.
Defined.

(** X22. In append mode the rows of the batch are added after what the
    file holds, with no header, under the columns of this batch alone. *)
Theorem csv_append_no_header (files : gmap string (list (list string)))
    (data : list (gmap string (option string))) (path : string) :
  data ≠ [] →
  ∃ rows,
    CSVStorage.save files data path true
    = Some (<[path := default [] (files !! path) ++ rows]> files)
    ∧ length rows = length data
    ∧ Forall (λ r, length r = length (CSVStorage.fieldnames data)) rows.
Proof.
  intros Hne. exists (CSVStorage.cells data <$> data). split_and!.
  - by rewrite csv_save_file.
  - by rewrite length_fmap.
  - apply Forall_fmap, Forall_forall. intros item _. unfold CSVStorage.cells. simpl.
    by rewrite length_fmap.
Qed.

Lemma csv_append_no_header_witness :
  ∃ rows,
    CSVStorage.save {["out.csv" := [["title"]; ["T0"]]]}
      Inputs.two_shapes "out.csv" true
    = Some (<["out.csv" :=
               default [] (({["out.csv" := [["title"]; ["T0"]]]}
                              : gmap string (list (list string))) !! "out.csv")
               ++ rows]> {["out.csv" := [["title"]; ["T0"]]]})
    ∧ length rows = 2
    ∧ Forall (λ r, length r = length (CSVStorage.fieldnames Inputs.two_shapes))
        rows.
Proof.
  apply (csv_append_no_header {["out.csv" := [["title"]; ["T0"]]]}
           Inputs.two_shapes "out.csv").
  discriminate.
Defined.

(** Rows of three cells after a header of one. *)
Example csv_append_misaligned :
  CSVStorage.save {["out.csv" := [["title"]; ["T0"]]]}
    Inputs.two_shapes "out.csv" true
  = Some {["out.csv" := [["title"]; ["T0"];
                         [""; "L1"; "T1"];
                         ["A2"; ""; ""]]]}.
Proof. vm_compute. reflexivity. Qed.

(** X23. What [JSONStorage.save] writes, [JSONStorage.load] reads back:
    the batch itself, without the envelope; for the empty batch, which is
    not written, this holds when no file was there. *)
Theorem json_round_trip (scraped_at : string)
    (files : gmap string JSONStorage.json)
    (data : list JSONStorage.json) (path : string) :
  data ≠ [] ∨ files !! path = None →
  JSONStorage.load (JSONStorage.save scraped_at files data path) path
  = JSONStorage.JList data.
Proof.
  intros Hcase. unfold JSONStorage.load, JSONStorage.save.
  destruct data as [|item rest].
  - destruct Hcase as [?|Hnone]; [done | by rewrite Hnone].
  - by rewrite lookup_insert_eq.
Qed.

Lemma json_round_trip_witness :
  JSONStorage.load
    (JSONStorage.save "2024-05-01T10:00:00" ∅
       [JSONStorage.JObject [("title", JSONStorage.JStr "T1")]] "out.json")
    "out.json"
  = JSONStorage.JList [JSONStorage.JObject [("title", JSONStorage.JStr "T1")]].
Proof.
  apply (json_round_trip "2024-05-01T10:00:00" ∅
           [JSONStorage.JObject [("title", JSONStorage.JStr "T1")]] "out.json").
  left. discriminate.
Defined.

(** An empty batch leaves the file of an earlier run, which [load] then
    returns. *)
Example json_empty_batch_keeps_old_file (old : JSONStorage.json) :
  JSONStorage.load
    (JSONStorage.save "t" {["out.json" := JSONStorage.JList [old]]} [] "out.json")
    "out.json"
  = JSONStorage.JList [old].
Proof. reflexivity. Qed.

End FilesMore.
